(** * Two-station dispersion measurement (pysismo/pstwostation.py)

    A shallow embedding of the Python module [pstwostation] and the
    properties of its window isolator, trace loader, velocity-matrix call
    and local-maximum tracker.

    Conventions of the embedding:
    - Python 3 semantics ([/] is true division).
    - float64 values, numpy float arrays and [UTCDateTime] instants are
      idealised as exact rationals [Q]; rounding is not modelled, and [inf]
      and [nan] only where a definition says so.  Where Python raises on a
      zero divisor the model raises too.
    - a numpy 1-d array is a [list Q], a 2-d array a list of rows.
    - an exception is a value of [exn]; a call either returns or raises
      ([outcome]); loops that need not terminate take fuel ([run]).
    - functions of other libraries (obspy, scipy, matplotlib) and of modules
      that are not part of this file are parameters of the Sections below. *)

From Stdlib Require Import QArith Qabs Lqa ZArith Lia List Ascii String Bool.
From stdpp Require Import base list.

Local Open Scope Q_scope.

(** ** Python exceptions and results *)

Inductive exn : Type :=
| ValueError
| IndexError
| TypeError
| AttributeError
| UnboundLocalError
| ZeroDivisionError
| ReadError
| TracesNotCorrected (msg : string)
| CannotImportData (msg : string)
| CannotMeasureDispersion (msg : string).

Inductive outcome (A : Type) : Type :=
| Returned (a : A)
| Raised (e : exn).
Arguments Returned {A} a.
Arguments Raised {A} e.

#[global] Instance outcome_ret : MRet outcome := fun A a => Returned a.
#[global] Instance outcome_bind : MBind outcome := fun A B k m =>
  match m with
  | Returned a => k a
  | Raised e => Raised e
  end.

Definition is_returned {A : Type} (m : outcome A) : bool :=
  match m with Returned _ => true | Raised _ => false end.

(** [for x in xs: ...] with a body that may raise, collecting the results. *)
Fixpoint for_each {A B : Type} (f : A -> outcome B) (xs : list A) : outcome (list B) :=
  match xs with
  | [] => Returned []
  | x :: rest =>
      y ← f x;
      ys ← for_each f rest;
      Returned (y :: ys)
  end.

(** The outcome of code that contains a [while] loop, run with fuel. *)
Inductive run (A : Type) : Type :=
| Done (a : A)
| Fail (e : exn)
| OutOfFuel.
Arguments Done {A} a.
Arguments Fail {A} e.
Arguments OutOfFuel {A}.

Definition is_done {A : Type} (r : run A) : bool :=
  match r with Done _ => true | _ => false end.

(** ** Rational comparisons as booleans *)

Definition Qlt_bool (x y : Q) : bool := negb (Qle_bool y x).

(** ** obspy traces, as far as this module reads them *)

Record Trace : Type := {
  tr_id : string;            (* tr.id *)
  dtype : string;            (* tr.data.dtype *)
  starttime : Q;             (* tr.stats.starttime *)
  sampling_rate : Q;         (* tr.stats.sampling_rate *)
  sac_reftime : Q;           (* the instant of tr.stats.sac.nz* *)
  data : list Q              (* tr.data; tr.stats.npts is its length *)
}.

Definition npts (tr : Trace) : nat := length (data tr).

(** ** numpy and list indexing *)

(** [xs[i]] on a list or array: an index past the end raises. *)
Definition getitem {A : Type} (xs : list A) (i : nat) : outcome A :=
  match xs !! i with
  | Some x => Returned x
  | None => Raised IndexError
  end.

(** [np.zeros(n)] *)
Definition np_zeros (n : nat) : list Q := replicate n 0.

(** ** WindowIsolator: [movement_windows_construction] *)

Section WindowModel.

(** [cos_pi x] stands for [np.cos(np.pi * x)]. *)
Variable cos_pi : Q -> Q.

(** [timescale = [tr.stats.starttime + x / tr.stats.sampling_rate
                  for x in range(tr.stats.npts)]] *)
Definition sample_time (tr : Trace) (x : nat) : outcome Q :=
  if Qeq_bool (sampling_rate tr) 0 then Raised ZeroDivisionError
  else Returned (starttime tr + inject_Z (Z.of_nat x) / sampling_rate tr).

Definition timescale_of (tr : Trace) : outcome (list Q) :=
  for_each (sample_time tr) (seq 0 (npts tr)).

(** The weight [w[iperiod, index]] that the loop body leaves at one sample:
    the row starts at zero, the flat part is set to one, then the two taper
    tests overwrite it in the order of the source. *)
Definition window_weight (halfwidth : Z) (T0 arrival time : Q) : Q :=
  let n := inject_Z halfwidth in
  let Tturna := arrival - n * T0 in
  let Tturnb := arrival + n * T0 in
  let Tjumpa := arrival - n * T0 - T0 / 2 in
  let Tjumpb := arrival + n * T0 + T0 / 2 in
  let taper := cos_pi ((Qabs (time - arrival) - n * T0) / T0) in
  let w0 := 0 in
  let w1 := if Qle_bool time Tturnb && Qle_bool Tturna time then 1 else w0 in
  let w2 := if Qlt_bool time Tturna && Qlt_bool Tjumpa time then taper else w1 in
  let w3 := if Qlt_bool time Tjumpb && Qlt_bool Tturnb time then taper else w2 in
  w3.

(** [isotr[iperiod, :] = tr.data * w[iperiod, :]] *)
Definition isolate_row (halfwidth : Z) (T0 arrival : Q)
    (timescale data_ : list Q) : list Q :=
  zip_with Qmult data_ (map (window_weight halfwidth T0 arrival) timescale).

(** [plot_isolation]: besides drawing, it needs a first sample and a
    period equal to the one asked for, else [iso] is never bound. *)
Definition plot_isolation (timescale periods : list Q) (period : Q) : outcome unit :=
  match timescale with
  | [] => Raised IndexError
  | _ :: _ =>
      if existsb (fun T0 => Qeq_bool T0 period) periods then Returned tt
      else Raised UnboundLocalError
  end.

Definition movement_windows_construction (tr : Trace) (periods group_arr : list Q)
    (reftime : Q) (halfwidth : Z) (debug : bool) : outcome (list (list Q)) :=
  timescale ← timescale_of tr;
  isotr ← for_each
    (fun '(iperiod, T0) =>
       arrival ← getitem group_arr iperiod;
       Returned (isolate_row halfwidth T0 arrival timescale (data tr)))
    (zip (seq 0 (length periods)) periods);
  _ ← (if debug then plot_isolation timescale periods 80 else Returned tt);
  Returned isotr.

End WindowModel.

(** ** Trace loader: [Tscombine.get_merged_traces] *)

Record Station : Type := {
  network : string;
  name : string;
  channel : string
}.

Record Event : Type := {
  origin : Q                 (* event['origin'] *)
}.

(** [os.path.join] of [posixpath]: a component that starts with the
    separator restarts the path; no separator is added after an empty path or
    after one that already ends with it. *)
Fixpoint endswith_sep (s : string) : bool :=
  match s with
  | EmptyString => false
  | String c EmptyString => Ascii.eqb c "/"%char
  | String _ rest => endswith_sep rest
  end.

Definition startswith_sep (s : string) : bool :=
  match s with
  | String c _ => Ascii.eqb c "/"%char
  | EmptyString => false
  end.

Definition path_join (a : string) (p : list string) : string :=
  fold_left
    (fun path b =>
       if startswith_sep b then b
       else if String.eqb path "" || endswith_sep path then (path ++ b)%string
       else (path ++ "/" ++ b)%string)
    p a.

(** [".".join([prefix, "0000", sta.network, sta.name, "*", sta.channel,
               "M", "SAC"])] *)
Definition sac_filename (prefix : string) (sta : Station) : string :=
  String.concat "."
    [prefix; "0000"; network sta; name sta; "*"; channel sta; "M"; "SAC"]%string.

Section LoaderModel.

(** [UTCDateTime.strftime], [obspy.read(path, format="SAC")] and
    [Stream.merge()]. *)
Variable strftime : Q -> string -> string.
Variable obspy_read : string -> outcome (list Trace).
Variable merge : list Trace -> outcome (list Trace).

(** The one path that [get_merged_traces] reads, built from station 1. *)
Definition station1_path (event : Event) (sta1 : Station) (sacdir : string) : string :=
  path_join sacdir
    [strftime (origin event) "%Y%m%d%H%M%S";
     sac_filename (strftime (origin event) "%Y.%j.%H.%M.%S") sta1].

(** Returns the pair [(self.tr1, self.tr2)] that the method attaches. *)
Definition get_merged_traces (event : Event) (sta1 sta2 : Station)
    (sacdir : string) : outcome (Trace * Trace) :=
  let subdir := strftime (origin event) "%Y%m%d%H%M%S" in
  let prefix := strftime (origin event) "%Y.%j.%H.%M.%S" in
  let filename1 := sac_filename prefix sta1 in
  let filename2 := sac_filename prefix sta2 in
  let filepath := path_join sacdir [subdir; filename1] in
  st1 ← obspy_read filepath;
  let filepath := path_join sacdir [subdir; filename1] in
  st2 ← obspy_read filepath;
  m1 ← merge st1;
  tr1 ← getitem m1 0;
  m2 ← merge st2;
  tr2 ← getitem m2 0;
  if negb (String.eqb (dtype tr1) "float32") then
    Raised (TracesNotCorrected (tr_id tr1 ++ " without response removal"))
  else if negb (String.eqb (dtype tr2) "float32") then
    Raised (TracesNotCorrected (tr_id tr2 ++ " without response removal"))
  else if negb (Qeq_bool (sampling_rate tr1) (sampling_rate tr2)) then
    Raised (CannotImportData "sampling rates are different")
  else Returned (tr1, tr2).

End LoaderModel.

(** ** DispersionTracker: the state of a [Tscombine] object *)

(** A point is a pair of numbers: a click [(x, y)] of [plt.ginput], or the
    pair of integers that [local_maximum_tracking] hands back. *)
Definition point : Type := (Q * Q)%type.

Record Combination : Type := {
  tr1 : Trace;
  tr2 : Trace;
  veloscale : list Q;               (* self.veloscale *)
  vmatrix : list (list Q);          (* self.vmatrix, one row per period *)
  dispersion : option (list Q)      (* self.dispersion; [None] is Python's None *)
}.

Definition set_dispersion (self : Combination) (d : option (list Q)) : Combination :=
  {| tr1 := tr1 self; tr2 := tr2 self; veloscale := veloscale self;
     vmatrix := vmatrix self; dispersion := d |}.

Definition set_vmatrix (self : Combination) (vs : list Q) (m : list (list Q)) : Combination :=
  {| tr1 := tr1 self; tr2 := tr2 self; veloscale := vs;
     vmatrix := m; dispersion := dispersion self |}.

(** [bool(a)] of a numpy array (numpy 1.x): false when it has no element,
    the truth of its element when it has one, an error otherwise. *)
Definition np_truth (a : list Q) : outcome bool :=
  match a with
  | [] => Returned false
  | [x] => Returned (negb (Qeq_bool x 0))
  | _ :: _ :: _ => Raised ValueError
  end.

(** [bool(self.dispersion)]: [None] is false. *)
Definition dispersion_truth (d : option (list Q)) : outcome bool :=
  match d with
  | None => Returned false
  | Some a => np_truth a
  end.

(** [(xs == x).argmax()]: the first index that holds [x], 0 when none does;
    [argmax] of an empty array raises. *)
Fixpoint first_index (xs : list Q) (x : Q) : option nat :=
  match xs with
  | [] => None
  | y :: rest => if Qeq_bool y x then Some 0%nat else S <$> first_index rest x
  end.

Definition argmax_eq (xs : list Q) (x : Q) : outcome nat :=
  match xs with
  | [] => Raised ValueError
  | _ :: _ => Returned (default 0%nat (first_index xs x))
  end.

Definition get_point_index (p : point) (veloscale_ periods : list Q) : outcome (nat * nat) :=
  let '(period, velo) := p in
  iperiod ← argmax_eq periods period;
  ivelo ← argmax_eq veloscale_ velo;
  Returned (iperiod, ivelo).

(** [argrelextrema(xcorr, np.greater)[0]] of scipy.signal, with its defaults
    [order=1, mode='clip']: a sample is kept when it is strictly greater than
    its two neighbours, where a neighbour index is clipped into the array, so
    that the first and the last sample are compared with themselves. *)
Definition take_clip (xs : list Q) (i : Z) : Q :=
  nth (Z.to_nat (Z.min (Z.max i 0) (Z.of_nat (length xs) - 1))) xs 0.

Definition greater_than_neighbours (xs : list Q) (i : nat) : bool :=
  Qlt_bool (take_clip xs (Z.of_nat i + 1)) (take_clip xs (Z.of_nat i))
  && Qlt_bool (take_clip xs (Z.of_nat i - 1)) (take_clip xs (Z.of_nat i)).

Definition argrelextrema_greater (xs : list Q) : list nat :=
  List.filter (greater_than_neighbours xs) (seq 0 (length xs)).

(** What [argrelextrema(xcorr, np.less)[0]] would give: the local minima.
    The source never calls it; the statements about minima use it. *)
Definition less_than_neighbours (xs : list Q) (i : nat) : bool :=
  Qlt_bool (take_clip xs (Z.of_nat i)) (take_clip xs (Z.of_nat i + 1))
  && Qlt_bool (take_clip xs (Z.of_nat i)) (take_clip xs (Z.of_nat i - 1)).

Definition argrelextrema_less (xs : list Q) : list nat :=
  List.filter (less_than_neighbours xs) (seq 0 (length xs)).

(** [extremums = np.concatenate([local_minimums, local_maximums])], both
    computed by the source with the comparator [np.greater]. *)
Definition extremums (xcorr : list Q) : list nat :=
  let local_maximums := argrelextrema_greater xcorr in
  let local_minimums := argrelextrema_greater xcorr in
  local_minimums ++ local_maximums.

(** [extremums[(extremums - ivelo) <= 0]] and [extremums[(extremums - ivelo) >= 0]] *)
Definition extremums_left (xcorr : list Q) (ivelo : nat) : list nat :=
  List.filter (fun e => (Z.of_nat e - Z.of_nat ivelo <=? 0)%Z) (extremums xcorr).

Definition extremums_right (xcorr : list Q) (ivelo : nat) : list nat :=
  List.filter (fun e => (Z.of_nat e - Z.of_nat ivelo >=? 0)%Z) (extremums xcorr).

(** The [for shift in np.arange(shift_length)] loop.  [Returned None] means
    that the loop ended without binding [phasevelo].  A first pass reads the
    two extrema and then, for [shift_time], [self.tr1.sampling_rate]:
    [self.tr1] is the trace that [get_merged_traces] attached, whose sampling
    rate is an entry of its [stats], as every other function of the module
    reads it; the trace itself has no attribute of that name, so the lookup
    raises and the rest of the body is never run. *)
Definition shift_loop (left right : list nat) (shifts : list nat) : outcome (option Q) :=
  match shifts with
  | [] => Returned None
  | shift :: _ =>
      let left_extremum := nth (length left - (shift + 1)) left 0%nat in
      let right_extremum := nth shift right 0%nat in
      Raised AttributeError
  end.

(** [self.dispersion[iperiod] = phasevelo] *)
Definition setitem (d : option (list Q)) (i : nat) (v : Q) : outcome (list Q) :=
  match d with
  | None => Raised TypeError
  | Some a => if (i <? length a)%nat then Returned (<[i := v]> a) else Raised IndexError
  end.

Definition index_point (i j : Z) : point := (inject_Z i, inject_Z j).

(** Lines 219 to 224: the seeds [(leftpoint, rightpoint)] that are handed
    back; the empty tuple [()] is [None]. *)
Definition next_seeds (iperiod ivelo : nat) (periods : list Q)
    : option point * option point :=
  let leftpoint :=
    if negb (iperiod =? 0)%nat
    then Some (index_point (Z.of_nat iperiod - 1) (Z.of_nat ivelo)) else None in
  let rightpoint :=
    if negb (iperiod =? length periods)%nat
    then Some (index_point (Z.of_nat iperiod + 1) (Z.of_nat ivelo)) else None in
  (leftpoint, rightpoint).

(** Returns [(leftpoint, rightpoint)] and the object after the call. *)
Definition local_maximum_tracking (self : Combination) (refpoint : point)
    (periods : list Q) : outcome (option point * option point * Combination) :=
  '(iperiod, ivelo) ← get_point_index refpoint (veloscale self) periods;
  xcorr ← getitem (vmatrix self) iperiod;
  let left := extremums_left xcorr ivelo in
  let right := extremums_right xcorr ivelo in
  let shift_length := Nat.min (length left) (length right) in
  phasevelo ← shift_loop left right (seq 0 shift_length);
  match phasevelo with
  | None => Raised UnboundLocalError
  | Some v =>
      d ← setitem (dispersion self) iperiod v;
      let '(leftpoint, rightpoint) := next_seeds iperiod ivelo periods in
      Returned (leftpoint, rightpoint, set_dispersion self (Some d))
  end.


(** [plt.ginput(1)[0]]: the next click of the operator; no click, no item. *)
Definition ginput1 (clicks : list point) : outcome (point * list point) :=
  match clicks with
  | [] => Raised IndexError
  | c :: rest => Returned (c, rest)
  end.

(** [plot_vmatrix(periods, dispersion)]: the result, the object and the
    clicks that are left.  In the second branch [plt.plot(periods,
    self.dispersion)] needs two arrays of one length, and nothing is
    returned. *)
Definition plot_vmatrix (self : Combination) (periods : list Q) (clicks : list point)
    : outcome (option point * Combination * list point) :=
  t ← dispersion_truth (dispersion self);
  if negb t then
    '(refpoint, clicks') ← ginput1 clicks;
    if Qlt_bool (fst refpoint) 20 then Returned (None, self, clicks')
    else Returned (Some refpoint, self, clicks')
  else
    _ ← (if (length periods =? length (default [] (dispersion self)))%nat
         then Returned tt else Raised ValueError);
    '(refpoint, clicks') ← ginput1 clicks;
    if Qlt_bool (fst refpoint) 20
    then Returned (None, set_dispersion self None, clicks')
    else Returned (None, self, clicks').

(** The state of a walk: the object, and the period indices written so far
    (latest first).  The list is bookkeeping for the statements below; the
    Python object does not hold it. *)
Record walk_state : Type := {
  obj : Combination;
  resolved : list nat
}.

Definition period_index (self : Combination) (refpoint : point) (periods : list Q) : nat :=
  match get_point_index refpoint (veloscale self) periods with
  | Returned (iperiod, _) => iperiod
  | Raised _ => 0%nat
  end.

(** One call of [local_maximum_tracking] inside a walk. *)
Definition track (st : walk_state) (refpoint : point) (periods : list Q)
    : outcome (option point * option point * walk_state) :=
  '(leftpoint, rightpoint, self') ← local_maximum_tracking (obj st) refpoint periods;
  Returned (leftpoint, rightpoint,
            {| obj := self';
               resolved := period_index (obj st) refpoint periods :: resolved st |}).

(** [while (rightpoint): _, rightpoint = self.local_maximum_tracking(rightpoint, periods)] *)
Fixpoint while_rightpoint (fuel : nat) (st : walk_state) (periods : list Q)
    (rightpoint : option point) : walk_state * run unit :=
  match rightpoint with
  | None => (st, Done tt)
  | Some p =>
      match fuel with
      | O => (st, OutOfFuel)
      | S fuel' =>
          match track st p periods with
          | Raised e => (st, Fail e)
          | Returned (_, rightpoint', st') => while_rightpoint fuel' st' periods rightpoint'
          end
      end
  end.

(** [while (leftpoint): _leftpoint, _ = self.local_maximum_tracking(leftpoint, periods)]:
    the result is bound to [_leftpoint], so [leftpoint] keeps its value. *)
Fixpoint while_leftpoint (fuel : nat) (st : walk_state) (periods : list Q)
    (leftpoint : option point) : walk_state * run unit :=
  match leftpoint with
  | None => (st, Done tt)
  | Some p =>
      match fuel with
      | O => (st, OutOfFuel)
      | S fuel' =>
          match track st p periods with
          | Raised e => (st, Fail e)
          | Returned (_leftpoint, _, st') => while_leftpoint fuel' st' periods leftpoint
          end
      end
  end.

(** Lines 170 to 177 of [extraction_of_phasevelo]: the first call and the
    two loops. *)
Definition walk (fuel : nat) (st : walk_state) (refpoint : point) (periods : list Q)
    : walk_state * run unit :=
  match track st refpoint periods with
  | Raised e => (st, Fail e)
  | Returned (leftpoint, rightpoint, st1) =>
      match while_rightpoint fuel st1 periods rightpoint with
      | (st2, Done _) => while_leftpoint fuel st2 periods leftpoint
      | (st2, r) => (st2, r)
      end
  end.

(** [extraction_of_phasevelo(periods)]: the object and bookkeeping at the
    end (or where it stopped), the clicks left, and how it ended. *)
Definition extraction_of_phasevelo (fuel : nat) (self : Combination) (periods : list Q)
    (clicks : list point) : walk_state * list point * run unit :=
  let st0 := {| obj := self; resolved := [] |} in
  match plot_vmatrix self periods clicks with
  | Raised e => (st0, clicks, Fail e)
  | Returned (None, self1, clicks1) =>
      ({| obj := self1; resolved := [] |}, clicks1,
       Fail (CannotMeasureDispersion "Bad data"))
  | Returned (Some refpoint, self1, clicks1) =>
      match walk fuel {| obj := self1; resolved := [] |} refpoint periods with
      | (st2, Done _) =>
          match dispersion_truth (dispersion (obj st2)) with
          | Raised e => (st2, clicks1, Fail e)
          | Returned false =>
              (st2, clicks1, Fail (CannotMeasureDispersion "Measure dispersion errorly"))
          | Returned true =>
              match plot_vmatrix (obj st2) periods clicks1 with
              | Raised e => (st2, clicks1, Fail e)
              | Returned (_, self3, clicks3) =>
                  ({| obj := self3; resolved := resolved st2 |}, clicks3, Done tt)
              end
          end
      | (st2, r) => (st2, clicks1, r)
      end
  end.

(** ** VelocityMatrixBuilder: calling [intersta_t_v_construct] *)

(** The values that are passed to the builder. *)
Inductive pyval : Type :=
| VTrace (t : Trace)
| VMatrix (m : list (list Q))
| VArray (a : list Q)
| VNum (q : Q).

(** A parameter of a [def]: its name and its default value, if it has one. *)
Definition param : Type := (string * option pyval)%type.

(** Python's binding of positional arguments to the parameters of a
    function: arguments fill the parameters in order, a parameter left
    without an argument takes its default, and a parameter with neither, or
    an argument without a parameter, is a [TypeError]. *)
Fixpoint bind_args (params : list param) (args : list pyval)
    : outcome (list (string * pyval)) :=
  match params, args with
  | [], [] => Returned []
  | [], _ :: _ => Raised TypeError
  | (x, _) :: ps, a :: rest =>
      env ← bind_args ps rest;
      Returned ((x, a) :: env)
  | (x, Some d) :: ps, [] =>
      env ← bind_args ps [];
      Returned ((x, d) :: env)
  | (x, None) :: ps, [] => Raised TypeError
  end.

(** [def intersta_t_v_construct(tr1, tr2, filttr1, filttr2, periods,
        rmaxv=7, rminv=2, deltav=0.01, shift_len=500)] *)
Definition intersta_t_v_construct_params : list param :=
  [ ("tr1", None); ("tr2", None); ("filttr1", None); ("filttr2", None);
    ("periods", None); ("rmaxv", Some (VNum 7)); ("rminv", Some (VNum 2));
    ("deltav", Some (VNum (1 # 100))); ("shift_len", Some (VNum 500)) ]%string.

(** The body, as far as it can run: after the test of the sampling rates it
    reads [tr1.stats.samplinmg_rate], an attribute that the statistics of a
    trace do not have, so none of the later lines is reached. *)
Definition intersta_t_v_construct_body (env : list (string * pyval))
    : outcome (option (list Q * list (list Q))) :=
  match env with
  | (_, VTrace tr1_) :: (_, VTrace tr2_) :: _ =>
      if negb (Qeq_bool (sampling_rate tr1_) (sampling_rate tr2_))
      then Returned None
      else Raised AttributeError
  | _ => Raised AttributeError
  end.

Definition intersta_t_v_construct (args : list pyval)
    : outcome (option (list Q * list (list Q))) :=
  env ← bind_args intersta_t_v_construct_params args;
  intersta_t_v_construct_body env.

(** ** PairAssembler: [Tscombine.measure_dispersion] *)

(** How the part of [measure_dispersion] before the extraction ends: with
    one of the two early [return None], or with the value of the builder. *)
Inductive stage : Type :=
| Stopped
| Built (r : option (list Q * list (list Q))).

Definition is_empty {A : Type} (l : list A) : bool :=
  match l with [] => true | _ :: _ => false end.

Section PipelineModel.

(** [np.cos(np.pi * x)], and the two stages that rest on FTAN and on
    scipy's filter design: [measure_group_arrival(tr, periods, alpha, debug)]
    gives the reference time and the list of arrivals,
    [kaiser_windows_filter(tr, isotr, periods, debug)] the filtered matrix. *)
Variable cos_pi : Q -> Q.
Variable measure_group_arrival : Trace -> list Q -> Q -> bool -> outcome (Q * list Q).
Variable kaiser_windows_filter :
  Trace -> list (list Q) -> list Q -> bool -> outcome (list (list Q)).

(** Lines 120 to 149. *)
Definition build_vmatrix (self : Combination) (periods : list Q) (alpha : Q)
    : outcome stage :=
  let tr1_ := tr1 self in
  let tr2_ := tr2 self in
  '(reftime1, group_arr1) ← measure_group_arrival tr1_ periods alpha true;
  '(reftime2, group_arr2) ← measure_group_arrival tr2_ periods alpha false;
  if negb (Qeq_bool reftime1 reftime2) then Returned Stopped
  else if is_empty group_arr1 || is_empty group_arr2 then Returned Stopped
  else
    let reftime := reftime1 in
    isotr1 ← movement_windows_construction cos_pi tr1_ periods group_arr1 reftime 3 true;
    isotr2 ← movement_windows_construction cos_pi tr2_ periods group_arr2 reftime 3 false;
    filttr1 ← kaiser_windows_filter tr1_ isotr1 periods true;
    filttr2 ← kaiser_windows_filter tr2_ isotr2 periods false;
    r ← intersta_t_v_construct [VTrace tr1_; VTrace tr2_; VMatrix filttr1; VMatrix filttr2];
    Returned (Built r).

(** [measure_dispersion(periods, alpha, shift_len)].  Unpacking [None] into
    [veloscale, vmatrix] is a [TypeError]; [not self.vmatrix] is the truth
    of an array with all the entries of the matrix. *)
Definition measure_dispersion (fuel : nat) (self : Combination) (periods : list Q)
    (alpha shift_len : Q) (clicks : list point) : walk_state * list point * run unit :=
  let self0 := set_dispersion self (Some (np_zeros (length periods))) in
  let st0 := {| obj := self0; resolved := [] |} in
  match build_vmatrix self0 periods alpha with
  | Raised e => (st0, clicks, Fail e)
  | Returned Stopped => (st0, clicks, Done tt)
  | Returned (Built None) => (st0, clicks, Fail TypeError)
  | Returned (Built (Some (veloscale_, vmatrix_))) =>
      let self1 := set_vmatrix self0 veloscale_ vmatrix_ in
      let st1 := {| obj := self1; resolved := [] |} in
      match np_truth (concat vmatrix_) with
      | Raised e => (st1, clicks, Fail e)
      | Returned false =>
          ({| obj := set_dispersion self1 None; resolved := [] |}, clicks, Done tt)
      | Returned true => extraction_of_phasevelo fuel self1 periods clicks
      end
  end.

End PipelineModel.

(** ** Points and coordinates: [get_point_coord] *)

(** [xs[i]] on a numpy array with an integer that may be negative: an index
    below zero counts from the end. *)
Definition np_getitem {A : Type} (xs : list A) (i : Z) : outcome A :=
  let n := Z.of_nat (length xs) in
  if (0 <=? i)%Z && (i <? n)%Z then getitem xs (Z.to_nat i)
  else if (- n <=? i)%Z && (i <? 0)%Z then getitem xs (Z.to_nat (n + i))
  else Raised IndexError.

(** The first branch of [get_point_coord]: the coordinates and the value at
    an index pair. *)
Definition coord_at_index (veloscale_ periods : list Q) (vmatrix_ : list (list Q))
    (index : Z * Z) : outcome (Q * Q * Q) :=
  let '(iperiod, ivelo) := index in
  period ← np_getitem periods iperiod;
  velo ← np_getitem veloscale_ ivelo;
  row ← np_getitem vmatrix_ iperiod;
  value ← np_getitem row ivelo;
  Returned (period, velo, value).

(** [get_point_coord(veloscale, periods, vmatrix, index, point)]: [None] for
    an argument is Python's None, [Returned None] the empty tuple.  The
    second branch calls the function again with the index found, which is a
    pair and so takes the first branch. *)
Definition get_point_coord (veloscale_ periods : list Q) (vmatrix_ : list (list Q))
    (index : option (Z * Z)) (point_ : option point) : outcome (option (Q * Q * Q)) :=
  match point_, index with
  | None, Some index_ =>
      coords ← coord_at_index veloscale_ periods vmatrix_ index_;
      Returned (Some coords)
  | Some p, None =>
      '(iperiod, ivelo) ← get_point_index p veloscale_ periods;
      coords ← coord_at_index veloscale_ periods vmatrix_
                 (Z.of_nat iperiod, Z.of_nat ivelo);
      Returned (Some coords)
  | _, _ => Returned None
  end.

(** ** GroupArrivalEstimator: [measure_group_arrival] *)

(** [a.argmax()] of a float array: the first index that holds the greatest
    value; an empty array raises. *)
Fixpoint argmax_from (best_i : nat) (best : Q) (i : nat) (xs : list Q) : nat :=
  match xs with
  | [] => best_i
  | x :: rest =>
      if Qlt_bool best x then argmax_from i x (S i) rest
      else argmax_from best_i best (S i) rest
  end.

Definition np_argmax (xs : list Q) : outcome nat :=
  match xs with
  | [] => Raised ValueError
  | x :: rest => Returned (argmax_from 0 x 1 rest)
  end.

(** The loop of [plot_analytical_amp] and of [plot_isolation] that looks for
    the row of the period asked for: the last match wins, and a match needs
    its row. *)
Fixpoint find_signal (amp : list (list Q)) (periods : list Q) (period : Q)
    (iperiod : nat) (signal : option (list Q)) : outcome (option (list Q)) :=
  match periods with
  | [] => Returned signal
  | T0 :: rest =>
      if Qeq_bool period T0 then
        row ← getitem amp iperiod;
        find_signal amp rest period (S iperiod) (Some row)
      else find_signal amp rest period (S iperiod) signal
  end.

(** [plot_analytical_amp(amp, periods, period, starttime, dt)]: without a
    matching period [signal] is not bound; the marker of the maximum needs a
    sample. *)
Definition plot_analytical_amp (amp : list (list Q)) (periods : list Q) (period : Q)
    : outcome unit :=
  signal ← find_signal amp periods period 0 None;
  match signal with
  | None => Raised UnboundLocalError
  | Some row =>
      _ ← np_argmax row;
      Returned tt
  end.

Section GroupArrivalModel.

(** [FTAN(tr.data, dt, periods, alpha)] of [pscrosscorr]: the amplitude and
    the phase matrix, one row per period. *)
Variable FTAN : list Q -> Q -> list Q -> Q -> outcome (list (list Q) * list (list Q)).

(** [starttime + amp[iperiod, :].argmax() * dt] *)
Definition group_arrival_at (tr : Trace) (amp : list (list Q)) (dt : Q) (iperiod : nat)
    : outcome Q :=
  row ← getitem amp iperiod;
  k ← np_argmax row;
  Returned (starttime tr + inject_Z (Z.of_nat k) * dt).

(** [measure_group_arrival(tr, periods, alpha, debug)]; the reference time is
    the instant that the header fields [nz*] of the trace give. *)
Definition measure_group_arrival (tr : Trace) (periods : list Q) (alpha : Q)
    (debug : bool) : outcome (Q * list Q) :=
  dt ← (if Qeq_bool (sampling_rate tr) 0 then Raised ZeroDivisionError
        else Returned (1 / sampling_rate tr));
  '(amp, phi) ← FTAN (data tr) dt periods alpha;
  let reftime := sac_reftime tr in
  group_arrival ← for_each (group_arrival_at tr amp dt) (seq 0 (length periods));
  _ ← (if debug then plot_analytical_amp amp periods 80 else Returned tt);
  Returned (reftime, group_arrival).

End GroupArrivalModel.

(** ** BandpassFilterBank: [kaiser_windows_filter] *)

(** The [window] argument of [firwin]: the tuple [('kaiser', beta)], or an
    array of numbers. *)
Inductive window_arg : Type :=
| KaiserWindow (beta : Q)
| TapsWindow (taps : list Q).

Section FilterBankModel.

(** [ntaps_of tr] is [2 ** math.ceil(math.log(tr.stats.sac.npts, 2))];
    [firwin_band tr ntaps T0 window] is the call [firwin(ntaps, [lowcut,
    highcut], width=width, window=window, nyq=nyq, pass_zero=False)] with the
    band that the source computes from [T0], the resampling interval and the
    sampling rate of the trace; [sig_convolve x w] is [sig_convolve(x, w,
    mode='same')]. *)
Variable ntaps_of : Trace -> outcome nat.
Variable firwin_band : Trace -> nat -> Q -> window_arg -> outcome (list Q).
Variable sig_convolve : list Q -> list Q -> outcome (list Q).

(** [conv_result[iperiod, :] = filtered] into a row of [n] entries: an array
    of that length is stored, one of a single entry is broadcast, any other
    length is refused. *)
Definition assign_row (n : nat) (filtered : list Q) : outcome (list Q) :=
  if (length filtered =? n)%nat then Returned filtered
  else match filtered with
       | [x] => Returned (replicate n x)
       | _ => Raised ValueError
       end.

(** The loop over the periods.  [window] is a local variable that the loop
    assigns: each period passes on the taps it designed. *)
Fixpoint filter_rows (tr : Trace) (ntaps : nat) (isotr : list (list Q))
    (window : window_arg) (iperiod : nat) (periods : list Q)
    : outcome (list (list Q)) :=
  match periods with
  | [] => Returned []
  | T0 :: rest =>
      taps ← firwin_band tr ntaps T0 window;
      row ← getitem isotr iperiod;
      filtered ← sig_convolve row taps;
      stored ← assign_row (length (data tr)) filtered;
      rows ← filter_rows tr ntaps isotr (TapsWindow taps) (S iperiod) rest;
      Returned (stored :: rows)
  end.

Definition kaiser_windows_filter (tr : Trace) (isotr : list (list Q)) (periods : list Q)
    (debug : bool) : outcome (list (list Q)) :=
  ntaps ← ntaps_of tr;
  filter_rows tr ntaps isotr (KaiserWindow 9) 0 periods.

End FilterBankModel.

(** ** Common-line test: [common_line_judgement] *)

Section CommonLineModel.

(** The station and event objects, of which the function reads the
    coordinates only: [coord] is [sta.coord], [latitude] and [longitude] are
    the entries of the event; [baz a b c d] is [DistAz(a, b, c, d).baz]. *)
Context {St Ev : Type}.
Variable coord : St -> Q * Q.
Variable latitude : Ev -> Q.
Variable longitude : Ev -> Q.
Variable baz : Q -> Q -> Q -> Q -> Q.

Definition common_line_judgement (event : Ev) (station_pair : St * St) (minangle : Q)
    : option (St * St * Ev) :=
  let '(sta1, sta2) := station_pair in
  let intersta := baz (snd (coord sta1)) (fst (coord sta1))
                      (snd (coord sta2)) (fst (coord sta2)) in
  let sta2event := baz (snd (coord sta1)) (fst (coord sta1))
                       (latitude event) (longitude event) in
  if Qlt_bool (Qabs (intersta - sta2event)) minangle then Some (sta1, sta2, event)
  else if Qlt_bool (Qabs (Qabs (intersta - sta2event) - 180)) minangle
  then Some (sta2, sta1, event)
  else None.

End CommonLineModel.

(** ** Vocabulary of the statements *)

(** The builder handed a value back to [measure_dispersion]. *)
Definition is_built (o : outcome stage) : bool :=
  match o with
  | Returned (Built _) => true
  | _ => false
  end.

(** The dispersion array has [n] entries, and those at period indices that
    the walk has not written are 0. *)
Definition zero_where_unresolved (n : nat) (st : walk_state) : Prop :=
  exists d : list Q,
    dispersion (obj st) = Some d /\ length d = n
    /\ forall j : nat, (j < n)%nat -> ~ In j (resolved st) -> d !! j = Some 0.

(** ** Example inputs *)

Definition window_example_trace : Trace :=
  {| tr_id := "BL.NUPB..BHZ"; dtype := "float32"; starttime := 0;
     sampling_rate := 1; sac_reftime := 0;
     data := [10; 11; 12; 13; 14; 15; 16; 17; 18; 19; 20; 21; 22; 23; 24; 25] |}.

(** A store with one SAC file, the one of station BL.NUPB. *)
Definition example_strftime (t : Q) (fmt : string) : string :=
  if String.eqb fmt "%Y%m%d%H%M%S" then "20140501120130" else "2014.121.12.01.30".

Definition example_read (path : string) : outcome (list Trace) :=
  if String.eqb path "/data/20140501120130/2014.121.12.01.30.0000.BL.NUPB.*.BHZ.M.SAC"
  then Returned [window_example_trace]
  else Raised ReadError.

Definition example_merge (st : list Trace) : outcome (list Trace) := Returned st.

Definition sta_nupb : Station := {| network := "BL"; name := "NUPB"; channel := "BHZ" |}.
Definition sta_other : Station := {| network := "BL"; name := "OTHER"; channel := "BHZ" |}.
Definition example_event : Event := {| origin := 0 |}.

(** Two periods, five velocities, a ridge with two maxima in each row. *)
Definition ridge_combination : Combination :=
  {| tr1 := window_example_trace; tr2 := window_example_trace;
     veloscale := [2; 5 # 2; 3; 7 # 2; 4];
     vmatrix := [ [0; 5 # 10; 1 # 10; 8 # 10; 0];
                  [0; 9 # 10; 2 # 10; 6 # 10; 0] ];
     dispersion := Some [0; 0] |}.

Definition ridge_periods : list Q := [1; 2].

(** A row without any local maximum. *)
Definition flat_combination : Combination :=
  {| tr1 := window_example_trace; tr2 := window_example_trace;
     veloscale := [2; 5 # 2; 3; 7 # 2; 4];
     vmatrix := [ [0; 0; 0; 0; 0]; [0; 0; 0; 0; 0] ];
     dispersion := Some [0; 0] |}.

(** One period of 20 s, a trace sampled every 10 s. *)
Definition slow_trace : Trace :=
  {| tr_id := "BL.NUPB..BHZ"; dtype := "float32"; starttime := 0;
     sampling_rate := 1 # 10; sac_reftime := 0; data := [] |}.

Definition loop_combination : Combination :=
  {| tr1 := slow_trace; tr2 := slow_trace;
     veloscale := [0; 1; 2; 3; 4];
     vmatrix := [ [0; 5; 1; 7; 0] ];
     dispersion := Some [0] |}.

(** Stages that succeed: every period gets the arrival 8, and the filter
    hands the isolated matrix on. *)
Definition example_group_arrival (tr : Trace) (periods : list Q) (alpha : Q)
    (debug : bool) : outcome (Q * list Q) :=
  Returned (sac_reftime tr, map (fun _ => 8) periods).

Definition example_filter (tr : Trace) (isotr : list (list Q)) (periods : list Q)
    (debug : bool) : outcome (list (list Q)) :=
  Returned isotr.

(** An analysis whose envelope has, for every period, its greatest value 3
    at the samples 1 and 2. *)
Definition example_FTAN (data_ : list Q) (dt : Q) (periods : list Q) (alpha : Q)
    : outcome (list (list Q) * list (list Q)) :=
  Returned (map (fun _ => [1; 3; 3; 2]) periods, map (fun _ => [0; 0; 0; 0]) periods).

Definition short_trace : Trace :=
  {| tr_id := "BL.NUPB..BHZ"; dtype := "float32"; starttime := 100;
     sampling_rate := 2; sac_reftime := 0; data := [5; 6; 7; 8] |}.

Definition late_trace : Trace :=
  {| tr_id := "BL.OTHER..BHZ"; dtype := "float32"; starttime := 100;
     sampling_rate := 2; sac_reftime := 1; data := [5; 6; 7; 8] |}.

(** Two traces whose headers give different reference times. *)
Definition mismatch_combination : Combination :=
  {| tr1 := short_trace; tr2 := late_trace;
     veloscale := []; vmatrix := []; dispersion := None |}.

(** A filter designer that accepts any window, a convolution that hands its
    first argument on, and sixteen taps. *)
Definition example_ntaps (tr : Trace) : outcome nat := Returned 16%nat.

Definition example_firwin (tr : Trace) (ntaps : nat) (T0 : Q) (window : window_arg)
    : outcome (list Q) :=
  Returned (replicate ntaps (1 # 16)).

Definition example_convolve (x taps : list Q) : outcome (list Q) := Returned x.

(** Stations on a line: the position of a station is its number, and the
    back-azimuth between two places is the difference of their positions. *)
Definition example_coord (sta : nat) : Q * Q := (0, inject_Z (Z.of_nat sta)).

Definition example_baz (lat1 lon1 lat2 lon2 : Q) : Q := lat2 - lat1.

(** * Properties *)

(** ** Rational comparisons *)

Lemma Qlt_bool_iff (x y : Q) : Qlt_bool x y = true <-> x < y.
Proof.
  unfold Qlt_bool. rewrite negb_true_iff.
  split; intros H.
  - apply Qnot_le_lt. intros Hle. apply Qle_bool_iff in Hle. congruence.
  - destruct (Qle_bool y x) eqn:E; [|reflexivity].
    apply Qle_bool_iff in E. apply Qle_not_lt in E. contradiction.
Qed.

Lemma Qlt_bool_false_iff (x y : Q) : Qlt_bool x y = false <-> y <= x.
Proof.
  unfold Qlt_bool. rewrite negb_false_iff. apply Qle_bool_iff.
Qed.

Lemma Qle_bool_false_iff (x y : Q) : Qle_bool x y = false <-> y < x.
Proof.
  rewrite <- Qlt_bool_iff. unfold Qlt_bool.
  destruct (Qle_bool x y); simpl; intuition congruence.
Qed.

Lemma Qmult_1_r_eq (x : Q) : x * 1 = x.
Proof.
  destruct x as [a b]. unfold Qmult. simpl.
  rewrite Z.mul_1_r, Pos.mul_1_r. reflexivity.
Qed.

(** Turns the boolean tests of the hypotheses into inequalities. *)
Ltac q_tests :=
  repeat match goal with
  | H : _ && _ = true |- _ => apply andb_true_iff in H; destruct H
  | H : _ && _ = false |- _ => apply andb_false_iff in H
  | H : Qle_bool _ _ = true |- _ => apply Qle_bool_iff in H
  | H : Qle_bool _ _ = false |- _ => apply Qle_bool_false_iff in H
  | H : Qlt_bool _ _ = true |- _ => apply Qlt_bool_iff in H
  | H : Qlt_bool _ _ = false |- _ => apply Qlt_bool_false_iff in H
  end.

(** ** Results of [for_each] *)

Lemma for_each_lookup {A B : Type} (f : A -> outcome B) (xs : list A) (ys : list B) :
  for_each f xs = Returned ys ->
  forall (i : nat) (x : A), xs !! i = Some x ->
  exists y, ys !! i = Some y /\ f x = Returned y.
Proof.
  revert ys. induction xs as [|a xs IH]; intros ys Hrun i x Hx.
  - discriminate.
  - simpl in Hrun. destruct (f a) as [b|e] eqn:Hfa; [|discriminate].
    simpl in Hrun. destruct (for_each f xs) as [bs|e] eqn:Hrest; [|discriminate].
    simpl in Hrun. injection Hrun as <-.
    destruct i as [|i]; simpl in *.
    + injection Hx as <-. eauto.
    + eapply IH; eauto.
Qed.

Lemma for_each_length {A B : Type} (f : A -> outcome B) (xs : list A) (ys : list B) :
  for_each f xs = Returned ys -> length ys = length xs.
Proof.
  revert ys. induction xs as [|a xs IH]; intros ys Hrun; simpl in Hrun.
  - injection Hrun as <-. reflexivity.
  - destruct (f a) as [b|e]; [|discriminate]. simpl in Hrun.
    destruct (for_each f xs) as [bs|e]; [|discriminate]. simpl in Hrun.
    injection Hrun as <-. simpl. f_equal. eauto.
Qed.

Lemma for_each_total {A B : Type} (f : A -> outcome B) (xs : list A) :
  (forall x, In x xs -> is_returned (f x) = true) ->
  is_returned (for_each f xs) = true.
Proof.
  induction xs as [|a xs IH]; intros Hall; simpl; [reflexivity|].
  pose proof (Hall a (or_introl eq_refl)) as Ha.
  destruct (f a) as [b|e]; [|discriminate]. simpl.
  destruct (for_each f xs) as [bs|e] eqn:Hrest; simpl; [reflexivity|].
  apply IH. intros x Hx. apply Hall. right. exact Hx.
Qed.

(** ** WindowIsolator *)

Section WindowFacts.

Variable cos_pi : Q -> Q.

Lemma window_weight_outside (halfwidth : Z) (T0 arrival time : Q) :
  0 < T0 -> (0 <= halfwidth)%Z ->
  time < arrival - inject_Z halfwidth * T0 - T0 / 2
  \/ arrival + inject_Z halfwidth * T0 + T0 / 2 < time ->
  window_weight cos_pi halfwidth T0 arrival time = 0.
Proof.
  intros HT Hn Hout.
  assert (Hn' : 0 <= inject_Z halfwidth).
  { change 0 with (inject_Z 0). rewrite <- Zle_Qle. exact Hn. }
  assert (HnT : 0 <= inject_Z halfwidth * T0).
  { apply Qmult_le_0_compat; [exact Hn'|]. apply Qlt_le_weak. exact HT. }
  unfold window_weight.
  set (nT := inject_Z halfwidth * T0) in *.
  assert (Hhalf : T0 / 2 == T0 * (1 # 2)) by (unfold Qdiv; reflexivity).
  destruct (Qlt_bool time (arrival + nT + T0 / 2) && Qlt_bool (arrival + nT) time) eqn:E3.
  { q_tests. exfalso. rewrite Hhalf in *. destruct Hout; lra. }
  destruct (Qlt_bool time (arrival - nT) && Qlt_bool (arrival - nT - T0 / 2) time) eqn:E2.
  { q_tests. exfalso. rewrite Hhalf in *. destruct Hout; lra. }
  destruct (Qle_bool time (arrival + nT) && Qle_bool (arrival - nT) time) eqn:E1.
  { q_tests. exfalso. rewrite Hhalf in *. destruct Hout; lra. }
  reflexivity.
Qed.

Lemma window_weight_arrival (halfwidth : Z) (T0 arrival time : Q) :
  0 < T0 -> (0 <= halfwidth)%Z -> time == arrival ->
  window_weight cos_pi halfwidth T0 arrival time = 1.
Proof.
  intros HT Hn Heq.
  assert (Hn' : 0 <= inject_Z halfwidth).
  { change 0 with (inject_Z 0). rewrite <- Zle_Qle. exact Hn. }
  assert (HnT : 0 <= inject_Z halfwidth * T0).
  { apply Qmult_le_0_compat; [exact Hn'|]. apply Qlt_le_weak. exact HT. }
  unfold window_weight.
  set (nT := inject_Z halfwidth * T0) in *.
  assert (Hhalf : T0 / 2 == T0 * (1 # 2)) by (unfold Qdiv; reflexivity).
  destruct (Qlt_bool time (arrival + nT + T0 / 2) && Qlt_bool (arrival + nT) time) eqn:E3.
  { q_tests. exfalso. lra. }
  destruct (Qlt_bool time (arrival - nT) && Qlt_bool (arrival - nT - T0 / 2) time) eqn:E2.
  { q_tests. exfalso. lra. }
  destruct (Qle_bool time (arrival + nT) && Qle_bool (arrival - nT) time) eqn:E1.
  { reflexivity. }
  q_tests. exfalso. destruct E1 as [E1|E1]; q_tests; lra.
Qed.

Lemma timescale_lookup (tr : Trace) (timescale : list Q) (k : nat) :
  timescale_of tr = Returned timescale -> (k < npts tr)%nat ->
  timescale !! k = Some (starttime tr + inject_Z (Z.of_nat k) / sampling_rate tr).
Proof.
  intros Hts Hk. unfold timescale_of in Hts.
  destruct (for_each_lookup _ _ _ Hts k k) as (t & Ht & Hf).
  { rewrite lookup_seq_lt by exact Hk. reflexivity. }
  rewrite Ht. unfold sample_time in Hf.
  destruct (Qeq_bool (sampling_rate tr) 0); [discriminate|].
  injection Hf as <-. reflexivity.
Qed.

Lemma isolate_row_lookup (halfwidth : Z) (T0 arrival : Q) (timescale data_ : list Q)
    (k : nat) (x time : Q) :
  data_ !! k = Some x -> timescale !! k = Some time ->
  isolate_row cos_pi halfwidth T0 arrival timescale data_ !! k
  = Some (x * window_weight cos_pi halfwidth T0 arrival time).
Proof.
  intros Hx Ht. unfold isolate_row.
  rewrite lookup_zip_with, Hx. simpl.
  rewrite list_lookup_fmap, Ht. reflexivity.
Qed.

(** The row that a returning call leaves for a period: one product of a
    sample and its weight per sample of the trace. *)
Lemma movement_windows_construction_row (tr : Trace) (periods group_arr : list Q)
    (reftime : Q) (halfwidth : Z) (debug : bool) (isotr : list (list Q))
    (iperiod : nat) (T0 arrival : Q) :
  movement_windows_construction cos_pi tr periods group_arr reftime halfwidth debug
    = Returned isotr ->
  periods !! iperiod = Some T0 -> group_arr !! iperiod = Some arrival ->
  exists timescale,
    timescale_of tr = Returned timescale /\
    isotr !! iperiod
    = Some (isolate_row cos_pi halfwidth T0 arrival timescale (data tr)).
Proof.
  intros Hrun HT Harr. unfold movement_windows_construction in Hrun.
  destruct (timescale_of tr) as [timescale|e] eqn:Hts; [|discriminate].
  simpl in Hrun.
  match type of Hrun with
  | context [for_each ?f ?xs] => destruct (for_each f xs) as [rows|e] eqn:Hrows
  end; [|discriminate].
  simpl in Hrun.
  assert (isotr = rows) as ->.
  { destruct debug; [destruct (plot_isolation timescale periods 80)|];
      simpl in Hrun; congruence. }
  exists timescale. split; [reflexivity|].
  destruct (for_each_lookup _ _ _ Hrows iperiod (iperiod, T0)) as (row & Hrow & Hf).
  { rewrite lookup_zip_with.
    rewrite lookup_seq_lt by (apply lookup_lt_Some in HT; exact HT).
    simpl. rewrite HT. reflexivity. }
  rewrite Hrow. f_equal.
  unfold getitem in Hf. rewrite Harr in Hf. simpl in Hf. congruence.
Qed.

(** C10: in every row that [movement_windows_construction] returns, for a
    period [T0 > 0] and a half-width [n >= 0], a sample whose time lies
    outside [arrival - n T0 - T0/2, arrival + n T0 + T0/2] has weight 0 and
    an isolated value equal to zero, and a sample at the arrival time has
    weight 1 and keeps the raw value of the trace. *)
Theorem window_isolation (tr : Trace) (periods group_arr : list Q) (reftime : Q)
    (halfwidth : Z) (debug : bool) (isotr : list (list Q))
    (iperiod : nat) (T0 arrival : Q) :
  movement_windows_construction cos_pi tr periods group_arr reftime halfwidth debug
    = Returned isotr ->
  periods !! iperiod = Some T0 -> group_arr !! iperiod = Some arrival ->
  0 < T0 -> (0 <= halfwidth)%Z ->
  exists row,
    isotr !! iperiod = Some row /\ length row = npts tr /\
    forall (k : nat) (x : Q), data tr !! k = Some x ->
      let time := starttime tr + inject_Z (Z.of_nat k) / sampling_rate tr in
      let w := window_weight cos_pi halfwidth T0 arrival time in
      row !! k = Some (x * w) /\
      (time < arrival - inject_Z halfwidth * T0 - T0 / 2
       \/ arrival + inject_Z halfwidth * T0 + T0 / 2 < time ->
       w = 0 /\ x * w == 0) /\
      (time == arrival -> w = 1 /\ x * w = x).
Proof.
  intros Hrun HT Harr Hpos Hn.
  destruct (movement_windows_construction_row _ _ _ _ _ _ _ _ _ _ Hrun HT Harr)
    as (timescale & Hts & Hrow).
  assert (Hlen : length timescale = npts tr).
  { unfold timescale_of in Hts. apply for_each_length in Hts.
    rewrite Hts. apply length_seq. }
  eexists. split; [exact Hrow|]. split.
  { unfold isolate_row. rewrite length_zip_with, length_map, Hlen.
    unfold npts. lia. }
  intros k x Hx time w.
  assert (Hk : (k < npts tr)%nat) by (apply lookup_lt_Some in Hx; exact Hx).
  pose proof (timescale_lookup _ _ _ Hts Hk) as Ht.
  split; [apply isolate_row_lookup; assumption|]. split.
  - intros Hout. unfold w.
    rewrite (window_weight_outside halfwidth T0 arrival time Hpos Hn Hout).
    split; [reflexivity|]. ring.
  - intros Heq. unfold w.
    rewrite (window_weight_arrival halfwidth T0 arrival time Hpos Hn Heq).
    split; [reflexivity|]. apply Qmult_1_r_eq.
Qed.

(** The call returns whenever the rate is not zero, every period has an
    arrival and no plot is asked for. *)
Lemma movement_windows_construction_returns (tr : Trace) (periods group_arr : list Q)
    (reftime : Q) (halfwidth : Z) :
  Qeq_bool (sampling_rate tr) 0 = false ->
  (length periods <= length group_arr)%nat ->
  is_returned
    (movement_windows_construction cos_pi tr periods group_arr reftime halfwidth false)
  = true.
Proof.
  intros Hrate Hlen. unfold movement_windows_construction.
  assert (Hts : is_returned (timescale_of tr) = true).
  { apply for_each_total. intros x _. unfold sample_time. rewrite Hrate. reflexivity. }
  destruct (timescale_of tr) as [timescale|e]; [|discriminate]. simpl.
  match goal with
  | |- context [for_each ?f ?xs] =>
      assert (Hrows : is_returned (for_each f xs) = true)
  end.
  { apply for_each_total. intros [i T0] Hin.
    apply list_elem_of_In, list_elem_of_lookup in Hin. destruct Hin as [j Hj].
    rewrite lookup_zip_with in Hj.
    destruct (seq 0 (length periods) !! j) as [i'|] eqn:Hseq; [|discriminate].
    simpl in Hj. destruct (periods !! j) eqn:HTj; [|discriminate].
    simpl in Hj. injection Hj as <- <-.
    apply lookup_seq in Hseq. destruct Hseq as [-> Hlt]. simpl.
    unfold getitem.
    destruct (lookup_lt_is_Some_2 group_arr j) as [a Ha]; [lia|].
    rewrite Ha. reflexivity. }
  match goal with
  | |- context [for_each ?f ?xs] => destruct (for_each f xs)
  end; [reflexivity|discriminate].
Qed.

End WindowFacts.

(** Samples at times 0 to 15, a period of 4, half-width 1, arrival at 8: the
    window is flat on [4, 12] and ends at 2 and 14. *)
Lemma window_isolation_witness :
  exists isotr row,
    movement_windows_construction (fun _ => 1 # 2) window_example_trace [4] [8] 0 1 false
      = Returned isotr /\
    isotr !! 0%nat = Some row /\ length row = 16%nat /\
    row !! 15%nat = Some (25 * 0) /\ row !! 1%nat = Some (11 * 0) /\
    row !! 8%nat = Some (18 * 1).
Proof.
  edestruct (window_isolation (fun _ => 1 # 2) window_example_trace [4] [8] 0 1 false)
    as (row & Hrow & Hlen & Hsamples).
  - vm_compute. reflexivity.
  - instantiate (1 := 4). instantiate (1 := 0%nat). reflexivity.
  - instantiate (1 := 8). reflexivity.
  - reflexivity.
  - lia.
  - eexists. exists row. split; [vm_compute; reflexivity|]. split; [exact Hrow|].
    split; [exact Hlen|]. split; [|split].
    + destruct (Hsamples 15%nat 25 eq_refl) as (Hk & Hout & _).
      destruct Hout as [Hw _]; [right; reflexivity|].
      rewrite Hw in Hk. exact Hk.
    + destruct (Hsamples 1%nat 11 eq_refl) as (Hk & Hout & _).
      destruct Hout as [Hw _]; [left; reflexivity|].
      rewrite Hw in Hk. exact Hk.
    + destruct (Hsamples 8%nat 18 eq_refl) as (Hk & _ & Harr).
      destruct Harr as [Hw _]; [reflexivity|].
      rewrite Hw in Hk. exact Hk.
Defined.

(** ** Trace loader *)

Section LoaderFacts.

Variable strftime : Q -> string -> string.
Variable obspy_read : string -> outcome (list Trace).
Variable merge : list Trace -> outcome (list Trace).

(** C3: both traces come from the file of station 1.  The result does not
    depend on station 2, it does not depend on what a read of any other path
    would give, and when the method returns the two traces are equal. *)
Theorem get_merged_traces_same_file (event : Event) (sta1 sta2 : Station)
    (sacdir : string) :
  (forall sta2' : Station,
      get_merged_traces strftime obspy_read merge event sta1 sta2 sacdir
      = get_merged_traces strftime obspy_read merge event sta1 sta2' sacdir)
  /\ (forall read' : string -> outcome (list Trace),
      read' (station1_path strftime event sta1 sacdir)
      = obspy_read (station1_path strftime event sta1 sacdir) ->
      get_merged_traces strftime read' merge event sta1 sta2 sacdir
      = get_merged_traces strftime obspy_read merge event sta1 sta2 sacdir)
  /\ (forall tr1_ tr2_ : Trace,
      get_merged_traces strftime obspy_read merge event sta1 sta2 sacdir
      = Returned (tr1_, tr2_) ->
      tr1_ = tr2_
      /\ exists st m,
          obspy_read (station1_path strftime event sta1 sacdir) = Returned st
          /\ merge st = Returned m /\ m !! 0%nat = Some tr1_).
Proof.
  split; [|split].
  - intros sta2'. reflexivity.
  - intros read' Hread. unfold get_merged_traces.
    fold (station1_path strftime event sta1 sacdir). rewrite Hread. reflexivity.
  - intros tr1_ tr2_. unfold get_merged_traces.
    fold (station1_path strftime event sta1 sacdir).
    destruct (obspy_read (station1_path strftime event sta1 sacdir)) as [st|e] eqn:Hst;
      [|discriminate].
    simpl. destruct (merge st) as [m|e] eqn:Hm; [|discriminate]. simpl.
    unfold getitem. destruct (m !! 0%nat) as [tr|] eqn:Htr; [|discriminate]. simpl.
    repeat match goal with
    | |- context [if ?b then _ else _] => destruct b
    end; intros H; try discriminate H.
    injection H as <- <-. split; [reflexivity|].
    exists st, m. auto.
Qed.

End LoaderFacts.

(** Station 2 has no file in the store; the call returns all the same, with
    the trace of station 1 twice. *)
Lemma get_merged_traces_witness :
  get_merged_traces example_strftime example_read example_merge
    example_event sta_nupb sta_other "/data"
  = Returned (window_example_trace, window_example_trace)
  /\ example_read (station1_path example_strftime example_event sta_other "/data")
     = Raised ReadError
  /\ window_example_trace = window_example_trace.
Proof.
  split; [reflexivity|]. split; [reflexivity|].
  apply (get_merged_traces_same_file example_strftime example_read example_merge
           example_event sta_nupb sta_other "/data").
  reflexivity.
Defined.

(** ** DispersionTracker: one call of [local_maximum_tracking] *)

Lemma first_index_lt (xs : list Q) (x : Q) (i : nat) :
  first_index xs x = Some i -> (i < length xs)%nat.
Proof.
  revert i. induction xs as [|y xs IH]; intros i H; simpl in H; [discriminate|].
  destruct (Qeq_bool y x).
  - injection H as <-. simpl. lia.
  - destruct (first_index xs x) as [j|]; [|discriminate].
    injection H as <-. simpl. specialize (IH j eq_refl). lia.
Qed.

Lemma first_index_default_lt (xs : list Q) (x : Q) :
  xs <> [] -> (default 0%nat (first_index xs x) < length xs)%nat.
Proof.
  intros Hne. destruct (first_index xs x) as [j|] eqn:E; simpl.
  - eapply first_index_lt. exact E.
  - destruct xs; [congruence|]. simpl. lia.
Qed.

Lemma argmax_eq_lt (xs : list Q) (x : Q) (i : nat) :
  argmax_eq xs x = Returned i -> (i < length xs)%nat.
Proof.
  unfold argmax_eq. destruct xs as [|y xs]; [discriminate|].
  intros H. injection H as <-.
  apply (first_index_default_lt (y :: xs) x). discriminate.
Qed.

Lemma get_point_index_lt (p : point) (veloscale_ periods : list Q) (iperiod ivelo : nat) :
  get_point_index p veloscale_ periods = Returned (iperiod, ivelo) ->
  (iperiod < length periods)%nat /\ (ivelo < length veloscale_)%nat.
Proof.
  unfold get_point_index. destruct p as [period velo].
  destruct (argmax_eq periods period) as [i|e] eqn:Hi; [|discriminate]. simpl.
  destruct (argmax_eq veloscale_ velo) as [j|e] eqn:Hj; [|discriminate]. simpl.
  intros H. injection H as <- <-.
  split; eapply argmax_eq_lt; eassumption.
Qed.

Lemma greater_less_exclusive (xs : list Q) (i : nat) :
  greater_than_neighbours xs i = true -> less_than_neighbours xs i = true -> False.
Proof.
  unfold greater_than_neighbours, less_than_neighbours. intros Hg Hl.
  q_tests. lra.
Qed.

(** C2: the candidate extrema of a column are its local maxima, listed
    twice; an index that is a local minimum is never among them.  In the
    column [0, 5, 1, 7, 0] the candidates are 1, 3, 1, 3 and the local minimum
    at index 2 is missing. *)
Theorem extremums_are_maxima_twice :
  (forall xcorr : list Q,
      extremums xcorr = argrelextrema_greater xcorr ++ argrelextrema_greater xcorr)
  /\ (forall (xcorr : list Q) (i : nat),
      In i (extremums xcorr) -> In i (argrelextrema_less xcorr) -> False)
  /\ extremums [0; 5; 1; 7; 0] = [1; 3; 1; 3]%nat
  /\ argrelextrema_less [0; 5; 1; 7; 0] = [2%nat].
Proof.
  split; [reflexivity|]. split; [|split; reflexivity].
  intros xcorr i Hin Hless. unfold extremums in Hin.
  assert (Hmax : In i (argrelextrema_greater xcorr)).
  { apply in_app_or in Hin. destruct Hin; assumption. }
  unfold argrelextrema_greater in Hmax. unfold argrelextrema_less in Hless.
  apply filter_In in Hmax. apply filter_In in Hless.
  eapply greater_less_exclusive; [apply Hmax | apply Hless].
Qed.

(** C6: when one side of the seed has no extremum, so that the loop over the
    shifts has nothing to run on, [phasevelo] is never bound and the call
    raises [UnboundLocalError] instead of returning. *)
Theorem miss_raises_unbound_local :
  (forall (self : Combination) (refpoint : point) (periods : list Q)
          (iperiod ivelo : nat) (xcorr : list Q),
      get_point_index refpoint (veloscale self) periods = Returned (iperiod, ivelo) ->
      vmatrix self !! iperiod = Some xcorr ->
      Nat.min (length (extremums_left xcorr ivelo))
              (length (extremums_right xcorr ivelo)) = 0%nat ->
      local_maximum_tracking self refpoint periods = Raised UnboundLocalError)
  /\ extremums_left [0; 0; 0; 0; 0] 2 = []
  /\ local_maximum_tracking flat_combination (1, 3) ridge_periods
     = Raised UnboundLocalError.
Proof.
  split; [|split; reflexivity].
  intros self refpoint periods iperiod ivelo xcorr Hidx Hrow Hmin.
  unfold local_maximum_tracking. rewrite Hidx. simpl.
  unfold getitem. rewrite Hrow. simpl. rewrite Hmin. reflexivity.
Qed.

(** Every call raises: which exception depends on where it stops. *)
Lemma local_maximum_tracking_outcome (self : Combination) (refpoint : point)
    (periods : list Q) :
  local_maximum_tracking self refpoint periods
  = match get_point_index refpoint (veloscale self) periods with
    | Raised e => Raised e
    | Returned (iperiod, ivelo) =>
        match vmatrix self !! iperiod with
        | None => Raised IndexError
        | Some xcorr =>
            if (Nat.min (length (extremums_left xcorr ivelo))
                        (length (extremums_right xcorr ivelo)) =? 0)%nat
            then Raised UnboundLocalError
            else Raised AttributeError
        end
    end.
Proof.
  unfold local_maximum_tracking.
  destruct (get_point_index refpoint (veloscale self) periods) as [[iperiod ivelo]|e];
    [|reflexivity].
  simpl. unfold getitem.
  destruct (vmatrix self !! iperiod) as [xcorr|]; [|reflexivity]. simpl.
  destruct (Nat.min (length (extremums_left xcorr ivelo))
                    (length (extremums_right xcorr ivelo))); reflexivity.
Qed.

Lemma local_maximum_tracking_not_returned (self : Combination) (refpoint : point)
    (periods : list Q) :
  is_returned (local_maximum_tracking self refpoint periods) = false.
Proof.
  rewrite local_maximum_tracking_outcome.
  destruct (get_point_index refpoint (veloscale self) periods) as [[iperiod ivelo]|e];
    [|reflexivity].
  destruct (vmatrix self !! iperiod) as [xcorr|]; [|reflexivity].
  destruct (Nat.min (length (extremums_left xcorr ivelo))
                    (length (extremums_right xcorr ivelo)) =? 0)%nat; reflexivity.
Qed.

Lemma local_maximum_tracking_attribute_error (self : Combination) (refpoint : point)
    (periods : list Q) (iperiod ivelo : nat) (xcorr : list Q) :
  get_point_index refpoint (veloscale self) periods = Returned (iperiod, ivelo) ->
  vmatrix self !! iperiod = Some xcorr ->
  extremums_left xcorr ivelo <> [] -> extremums_right xcorr ivelo <> [] ->
  local_maximum_tracking self refpoint periods = Raised AttributeError.
Proof.
  intros Hidx Hrow Hl Hr. rewrite local_maximum_tracking_outcome, Hidx, Hrow.
  destruct (extremums_left xcorr ivelo); [congruence|].
  destruct (extremums_right xcorr ivelo); [congruence|]. reflexivity.
Qed.



(** A call of [local_maximum_tracking] never returns and so never changes
    the object: it raises [ValueError] when the periods or the velocities are
    empty, [IndexError] when the matrix has no row for the period index,
    [UnboundLocalError] when one side of the seed has no candidate, and
    [AttributeError] in every other case. *)
Theorem local_maximum_tracking_always_raises (self : Combination) (refpoint : point)
    (periods : list Q) :
  is_returned (local_maximum_tracking self refpoint periods) = false
  /\ (is_empty periods || is_empty (veloscale self) = true ->
      local_maximum_tracking self refpoint periods = Raised ValueError)
  /\ (forall iperiod ivelo : nat,
        get_point_index refpoint (veloscale self) periods = Returned (iperiod, ivelo) ->
        (vmatrix self !! iperiod = None ->
         local_maximum_tracking self refpoint periods = Raised IndexError)
        /\ (forall xcorr : list Q, vmatrix self !! iperiod = Some xcorr ->
              (extremums_left xcorr ivelo = [] \/ extremums_right xcorr ivelo = [] ->
               local_maximum_tracking self refpoint periods = Raised UnboundLocalError)
              /\ (extremums_left xcorr ivelo <> [] ->
                  extremums_right xcorr ivelo <> [] ->
                  local_maximum_tracking self refpoint periods = Raised AttributeError))).
Proof.
  split; [apply local_maximum_tracking_not_returned|]. split.
  - intros Hempty. rewrite local_maximum_tracking_outcome.
    destruct refpoint as [T v]. unfold get_point_index, argmax_eq.
    destruct periods as [|T0 ps]; [reflexivity|].
    destruct (veloscale self) as [|v0 vs]; [reflexivity|discriminate Hempty].
  - intros iperiod ivelo Hidx. split.
    + intros Hrow. rewrite local_maximum_tracking_outcome, Hidx, Hrow. reflexivity.
    + intros xcorr Hrow. split.
      * intros Hside. rewrite local_maximum_tracking_outcome, Hidx, Hrow.
        destruct Hside as [-> | ->]; [reflexivity|].
        rewrite Nat.min_0_r. reflexivity.
      * eapply local_maximum_tracking_attribute_error; eassumption.
Qed.

(** ** DispersionTracker: the walk *)

Lemma track_raises (st : walk_state) (refpoint : point) (periods : list Q) :
  exists e : exn, track st refpoint periods = Raised e.
Proof.
  unfold track.
  pose proof (local_maximum_tracking_not_returned (obj st) refpoint periods) as Hno.
  destruct (local_maximum_tracking (obj st) refpoint periods) as [r|e];
    [discriminate Hno|].
  exists e. reflexivity.
Qed.

Lemma while_rightpoint_not_done (fuel : nat) (st : walk_state) (periods : list Q)
    (p : point) :
  is_done (snd (while_rightpoint fuel st periods (Some p))) = false.
Proof.
  destruct fuel as [|fuel]; simpl; [reflexivity|].
  destruct (track_raises st p periods) as [e ->]. reflexivity.
Qed.

Lemma while_leftpoint_not_done (fuel : nat) (st : walk_state) (periods : list Q)
    (p : point) :
  is_done (snd (while_leftpoint fuel st periods (Some p))) = false.
Proof.
  destruct fuel as [|fuel]; simpl; [reflexivity|].
  destruct (track_raises st p periods) as [e ->]. reflexivity.
Qed.

(** The walk stops in its first call, before either loop. *)
Lemma walk_raises (fuel : nat) (st : walk_state) (refpoint : point) (periods : list Q) :
  exists e : exn,
    track st refpoint periods = Raised e
    /\ walk fuel st refpoint periods = (st, Fail e).
Proof.
  destruct (track_raises st refpoint periods) as [e He].
  exists e. split; [exact He|]. unfold walk. rewrite He. reflexivity.
Qed.

Lemma extraction_raises (fuel : nat) (self : Combination) (periods : list Q)
    (clicks : list point) :
  exists e : exn, snd (extraction_of_phasevelo fuel self periods clicks) = Fail e.
Proof.
  unfold extraction_of_phasevelo.
  destruct (plot_vmatrix self periods clicks) as [[[[refpoint|] self1] clicks1]|e];
    simpl; eauto.
  destruct (walk_raises fuel {| obj := self1; resolved := [] |} refpoint periods)
    as (e & _ & ->).
  simpl. eauto.
Qed.

(** C5: the extraction never reaches the state where both directions are
    exhausted: on every input it ends by an exception, and a loop that were
    entered with a seed could not end normally.  On the one-period example
    the first call of [local_maximum_tracking] raises [AttributeError], with
    any fuel, before either loop is entered. *)
Theorem walk_never_exhausts_both_directions :
  (forall (fuel : nat) (self : Combination) (periods : list Q) (clicks : list point),
      is_done (snd (extraction_of_phasevelo fuel self periods clicks)) = false)
  /\ (forall (fuel : nat) (st : walk_state) (periods : list Q) (p : point),
      is_done (snd (while_rightpoint fuel st periods (Some p))) = false
      /\ is_done (snd (while_leftpoint fuel st periods (Some p))) = false)
  /\ (forall (fuel : nat) (self : Combination) (periods : list Q) (clicks : list point),
      exists e : exn, snd (extraction_of_phasevelo fuel self periods clicks) = Fail e)
  /\ (forall fuel : nat,
      extraction_of_phasevelo fuel loop_combination [20] [(20, 2)]
      = ({| obj := loop_combination; resolved := [] |}, [], Fail AttributeError)).
Proof.
  split.
  - intros fuel self periods clicks.
    destruct (extraction_raises fuel self periods clicks) as [e ->]. reflexivity.
  - split.
    + intros fuel st periods p. split.
      * apply while_rightpoint_not_done.
      * apply while_leftpoint_not_done.
    + split; [exact extraction_raises|].
      intros fuel. reflexivity.
Qed.

(** ** DispersionTracker: entries that the walk does not write *)

Lemma np_zeros_lookup (n j : nat) : (j < n)%nat -> np_zeros n !! j = Some 0.
Proof. intros H. unfold np_zeros. apply lookup_replicate_2. exact H. Qed.

Lemma zero_where_unresolved_init (self : Combination) (n : nat) :
  dispersion self = Some (np_zeros n) ->
  zero_where_unresolved n {| obj := self; resolved := [] |}.
Proof.
  intros Hd. exists (np_zeros n). simpl. split; [exact Hd|]. split.
  - unfold np_zeros. apply length_replicate.
  - intros j Hj _. apply np_zeros_lookup. exact Hj.
Qed.

Lemma track_keeps_zero (n : nat) (st : walk_state) (refpoint : point)
    (periods : list Q) (l r : option point) (st' : walk_state) :
  track st refpoint periods = Returned (l, r, st') ->
  zero_where_unresolved n st -> zero_where_unresolved n st'.
Proof.
  intros Ht _. destruct (track_raises st refpoint periods) as [e He].
  rewrite He in Ht. discriminate Ht.
Qed.

Lemma while_rightpoint_keeps_zero (n fuel : nat) (st : walk_state) (periods : list Q)
    (rightpoint : option point) :
  zero_where_unresolved n st ->
  zero_where_unresolved n (fst (while_rightpoint fuel st periods rightpoint)).
Proof.
  revert st rightpoint. induction fuel as [|fuel IH]; intros st rightpoint Hinv;
    destruct rightpoint as [p|]; simpl; try exact Hinv.
  destruct (track st p periods) as [[[l r] st']|e] eqn:Ht; [|exact Hinv].
  apply IH. eapply track_keeps_zero; eassumption.
Qed.

Lemma while_leftpoint_keeps_zero (n fuel : nat) (st : walk_state) (periods : list Q)
    (leftpoint : option point) :
  zero_where_unresolved n st ->
  zero_where_unresolved n (fst (while_leftpoint fuel st periods leftpoint)).
Proof.
  revert st. induction fuel as [|fuel IH]; intros st Hinv;
    destruct leftpoint as [p|]; simpl; try exact Hinv.
  destruct (track st p periods) as [[[l r] st']|e] eqn:Ht; [|exact Hinv].
  apply IH. eapply track_keeps_zero; eassumption.
Qed.

Lemma walk_keeps_zero (n fuel : nat) (st : walk_state) (refpoint : point)
    (periods : list Q) :
  zero_where_unresolved n st ->
  zero_where_unresolved n (fst (walk fuel st refpoint periods)).
Proof.
  intros Hinv. unfold walk.
  destruct (track st refpoint periods) as [[[l r] st1]|e] eqn:Ht; [|exact Hinv].
  pose proof (track_keeps_zero n _ _ _ _ _ _ Ht Hinv) as H1.
  pose proof (while_rightpoint_keeps_zero n fuel st1 periods r H1) as H2.
  destruct (while_rightpoint fuel st1 periods r) as [st2 [u| e |]]; simpl in H2;
    try exact H2.
  apply while_leftpoint_keeps_zero. exact H2.
Qed.

(** C8, as the code has it: a walk that starts from the array
    [np.zeros(len(periods))] of [measure_dispersion] leaves, however it ends,
    the value 0 at every period index that it did not write; such an entry
    is a number like any measured one. *)
Theorem unresolved_entries_are_zero (fuel : nat) (self : Combination)
    (refpoint : point) (periods : list Q) (st' : walk_state) (res : run unit)
    (j : nat) :
  dispersion self = Some (np_zeros (length periods)) ->
  walk fuel {| obj := self; resolved := [] |} refpoint periods = (st', res) ->
  (j < length periods)%nat ->
  ~ In j (resolved st') ->
  exists d : list Q,
    dispersion (obj st') = Some d /\ length d = length periods /\ d !! j = Some 0.
Proof.
  intros Hd Hwalk Hj Hnot.
  pose proof (walk_keeps_zero (length periods) fuel _ refpoint periods
                (zero_where_unresolved_init self _ Hd)) as Hinv.
  rewrite Hwalk in Hinv. simpl in Hinv.
  destruct Hinv as (d & Hd' & Hlen & Hzero).
  exists d. split; [exact Hd'|]. split; [exact Hlen|]. apply Hzero; assumption.
Qed.

(** The walk over the one-period example from the seed (20, 2): it stops in
    its first call and no entry is written. *)
Lemma unresolved_entries_are_zero_witness :
  exists d : list Q,
    dispersion (obj (fst (walk 5 {| obj := loop_combination; resolved := [] |}
                            (20, 2) [20]))) = Some d
    /\ length d = length [20] /\ d !! 0%nat = Some 0.
Proof.
  apply (unresolved_entries_are_zero 5 loop_combination (20, 2) [20]
           (fst (walk 5 {| obj := loop_combination; resolved := [] |} (20, 2) [20]))
           (snd (walk 5 {| obj := loop_combination; resolved := [] |} (20, 2) [20]))
           0%nat).
  - reflexivity.
  - apply surjective_pairing.
  - simpl. lia.
  - vm_compute. intros [].
Defined.

(** C8, as the claim has it, fails: when the extraction over the one-period
    example has stopped, the only period has never been written, and its
    entry is the number 0 of the initial array, not a missing value. *)
Lemma unresolved_entry_is_zero_filled :
  extraction_of_phasevelo 5 loop_combination [20] [(20, 2)]
  = ({| obj := loop_combination; resolved := [] |}, [], Fail AttributeError)
  /\ dispersion loop_combination = Some (np_zeros (length [20]))
  /\ np_zeros (length [20]) !! 0%nat = Some 0.
Proof. repeat split; reflexivity. Qed.


(** ** DispersionTracker: a seed below the minimum period *)

(** C7, as the code has it: when [plot_vmatrix] reaches its seed test (the
    dispersion array counts as false) and the first coordinate of the click
    is below 20, it returns [None] and [extraction_of_phasevelo] raises
    [CannotMeasureDispersion("Bad data")]; the object is left as it was and
    no period is tracked. *)
Theorem seed_below_minimum_raises (fuel : nat) (self : Combination)
    (periods : list Q) (click : point) (clicks : list point) :
  dispersion_truth (dispersion self) = Returned false ->
  fst click < 20 ->
  plot_vmatrix self periods (click :: clicks) = Returned (None, self, clicks)
  /\ extraction_of_phasevelo fuel self periods (click :: clicks)
     = ({| obj := self; resolved := [] |}, clicks,
        Fail (CannotMeasureDispersion "Bad data")).
Proof.
  intros Htruth Hlow.
  assert (Hplot : plot_vmatrix self periods (click :: clicks)
                  = Returned (None, self, clicks)).
  { unfold plot_vmatrix. rewrite Htruth. simpl.
    apply Qlt_bool_iff in Hlow. rewrite Hlow. reflexivity. }
  split; [exact Hplot|].
  unfold extraction_of_phasevelo. rewrite Hplot. reflexivity.
Qed.

Lemma seed_below_minimum_raises_witness :
  plot_vmatrix loop_combination [20] [(5, 3); (30, 3)]
  = Returned (None, loop_combination, [(30, 3)])
  /\ extraction_of_phasevelo 5 loop_combination [20] [(5, 3); (30, 3)]
     = ({| obj := loop_combination; resolved := [] |}, [(30, 3)],
        Fail (CannotMeasureDispersion "Bad data")).
Proof.
  apply (seed_below_minimum_raises 5 loop_combination [20] (5, 3) [(30, 3)]).
  - reflexivity.
  - reflexivity.
Defined.

(** C7, as the claim has it, fails: with the seed (10, 2) the extraction
    does not end normally, it raises; and the dispersion array is not empty,
    it still holds its initial zero. *)
Lemma seed_below_minimum_is_an_exception :
  snd (extraction_of_phasevelo 5 loop_combination [20] [(10, 2)])
  = Fail (CannotMeasureDispersion "Bad data")
  /\ is_done (snd (extraction_of_phasevelo 5 loop_combination [20] [(10, 2)])) = false
  /\ dispersion (obj (fst (fst (extraction_of_phasevelo 5 loop_combination [20] [(10, 2)]))))
     = Some [0].
Proof. repeat split; reflexivity. Qed.

(** ** PairAssembler: the call of the builder *)

Lemma four_arguments_raise (a b c d : pyval) :
  intersta_t_v_construct [a; b; c; d] = Raised TypeError.
Proof. reflexivity. Qed.

Section PipelineFacts.

Variable cos_pi : Q -> Q.
Variable measure_group_arrival : Trace -> list Q -> Q -> bool -> outcome (Q * list Q).
Variable kaiser_windows_filter :
  Trace -> list (list Q) -> list Q -> bool -> outcome (list (list Q)).

Lemma build_vmatrix_not_built (self : Combination) (periods : list Q) (alpha : Q) :
  is_built (build_vmatrix cos_pi measure_group_arrival kaiser_windows_filter
              self periods alpha) = false.
Proof.
  unfold build_vmatrix.
  destruct (measure_group_arrival (tr1 self) periods alpha true) as [[t1 g1]|e];
    [|reflexivity].
  simpl.
  destruct (measure_group_arrival (tr2 self) periods alpha false) as [[t2 g2]|e];
    [|reflexivity].
  simpl.
  destruct (negb (Qeq_bool t1 t2)); [reflexivity|].
  destruct (is_empty g1 || is_empty g2); [reflexivity|].
  destruct (movement_windows_construction cos_pi (tr1 self) periods g1 t1 3 true)
    as [i1|e]; [|reflexivity].
  simpl.
  destruct (movement_windows_construction cos_pi (tr2 self) periods g2 t1 3 false)
    as [i2|e]; [|reflexivity].
  simpl.
  destruct (kaiser_windows_filter (tr1 self) i1 periods true) as [f1|e]; [|reflexivity].
  simpl.
  destruct (kaiser_windows_filter (tr2 self) i2 periods false) as [f2|e]; [|reflexivity].
  reflexivity.
Qed.

(** When every stage before the builder returns, the call is what raises. *)
Lemma build_vmatrix_raises (self : Combination) (periods : list Q) (alpha : Q)
    (t1 t2 : Q) (g1 g2 : list Q) (i1 i2 f1 f2 : list (list Q)) :
  measure_group_arrival (tr1 self) periods alpha true = Returned (t1, g1) ->
  measure_group_arrival (tr2 self) periods alpha false = Returned (t2, g2) ->
  Qeq_bool t1 t2 = true -> is_empty g1 = false -> is_empty g2 = false ->
  movement_windows_construction cos_pi (tr1 self) periods g1 t1 3 true = Returned i1 ->
  movement_windows_construction cos_pi (tr2 self) periods g2 t1 3 false = Returned i2 ->
  kaiser_windows_filter (tr1 self) i1 periods true = Returned f1 ->
  kaiser_windows_filter (tr2 self) i2 periods false = Returned f2 ->
  build_vmatrix cos_pi measure_group_arrival kaiser_windows_filter self periods alpha
  = Raised TypeError.
Proof.
  intros H1 H2 Ht Hg1 Hg2 Hi1 Hi2 Hf1 Hf2. unfold build_vmatrix.
  rewrite H1. simpl. rewrite H2. simpl. rewrite Ht, Hg1, Hg2. simpl.
  rewrite Hi1. simpl. rewrite Hi2. simpl. rewrite Hf1. simpl. rewrite Hf2.
  reflexivity.
Qed.

(** [measure_dispersion] never reaches the extraction: no click is used, no
    period is written, and the matrix of the object is never set. *)
Lemma measure_dispersion_stops (fuel : nat) (self : Combination) (periods : list Q)
    (alpha shift_len : Q) (clicks : list point) :
  exists res : run unit,
    measure_dispersion cos_pi measure_group_arrival kaiser_windows_filter
      fuel self periods alpha shift_len clicks
    = ({| obj := set_dispersion self (Some (np_zeros (length periods)));
          resolved := [] |}, clicks, res).
Proof.
  unfold measure_dispersion.
  pose proof (build_vmatrix_not_built
                (set_dispersion self (Some (np_zeros (length periods)))) periods alpha)
    as Hb.
  destruct (build_vmatrix cos_pi measure_group_arrival kaiser_windows_filter
              (set_dispersion self (Some (np_zeros (length periods)))) periods alpha)
    as [[|r]|e]; simpl in Hb; try discriminate; eauto.
Qed.

End PipelineFacts.

(** C4: the call [intersta_t_v_construct(tr1, tr2, filttr1, filttr2)] of
    [measure_dispersion] passes four arguments to a function with five
    required parameters, so binding [periods] fails with a [TypeError]: the
    builder never hands back a scale and a matrix, and the method never goes
    on to the tracking.  On the example, where every stage before the call
    returns, the method ends with that [TypeError]. *)
Theorem builder_call_misses_periods :
  (forall a b c d : pyval, intersta_t_v_construct [a; b; c; d] = Raised TypeError)
  /\ (forall cos_pi measure_group_arrival kaiser_windows_filter
             (self : Combination) (periods : list Q) (alpha : Q),
      is_built (build_vmatrix cos_pi measure_group_arrival kaiser_windows_filter
                  self periods alpha) = false)
  /\ (forall cos_pi measure_group_arrival kaiser_windows_filter
             (fuel : nat) (self : Combination) (periods : list Q) (alpha shift_len : Q)
             (clicks : list point),
      exists res : run unit,
        measure_dispersion cos_pi measure_group_arrival kaiser_windows_filter
          fuel self periods alpha shift_len clicks
        = ({| obj := set_dispersion self (Some (np_zeros (length periods)));
              resolved := [] |}, clicks, res))
  /\ build_vmatrix (fun _ => 1 # 2) example_group_arrival example_filter
       ridge_combination [80] 1
     = Raised TypeError
  /\ measure_dispersion (fun _ => 1 # 2) example_group_arrival example_filter
       5 ridge_combination [80] 1 500 [(20, 3)]
     = ({| obj := set_dispersion ridge_combination (Some [0]); resolved := [] |},
        [(20, 3)], Fail TypeError).
Proof.
  split; [exact four_arguments_raise|].
  split; [exact build_vmatrix_not_built|].
  split; [exact measure_dispersion_stops|].
  split; vm_compute; reflexivity.
Qed.

(** ** Points and indices: [get_point_index], [get_point_coord] *)

Lemma first_index_found (xs : list Q) (x : Q) (i : nat) (y : Q) :
  xs !! i = Some y -> y == x ->
  (forall (i' : nat) (y' : Q), (i' < i)%nat -> xs !! i' = Some y' -> ~ y' == x) ->
  first_index xs x = Some i.
Proof.
  revert i. induction xs as [|z xs IH]; intros i Hi Hy Hbefore; [discriminate|].
  simpl. destruct i as [|i]; simpl in Hi.
  - injection Hi as ->. apply Qeq_bool_iff in Hy. rewrite Hy. reflexivity.
  - destruct (Qeq_bool z x) eqn:Hz.
    + exfalso. apply Qeq_bool_iff in Hz.
      apply (Hbefore 0%nat z); [lia|reflexivity|exact Hz].
    + rewrite (IH i Hi Hy); [reflexivity|].
      intros i' y' Hlt Hy'. apply (Hbefore (S i') y'); [lia|exact Hy'].
Qed.

Lemma first_index_absent (xs : list Q) (x : Q) :
  (forall y : Q, In y xs -> ~ y == x) -> first_index xs x = None.
Proof.
  induction xs as [|z xs IH]; intros Hall; [reflexivity|]. simpl.
  destruct (Qeq_bool z x) eqn:Hz.
  - exfalso. apply Qeq_bool_iff in Hz. apply (Hall z); [left; reflexivity|exact Hz].
  - rewrite IH; [reflexivity|]. intros y Hy. apply Hall. right. exact Hy.
Qed.

Lemma argmax_eq_found (xs : list Q) (x : Q) (i : nat) (y : Q) :
  xs !! i = Some y -> y == x ->
  (forall (i' : nat) (y' : Q), (i' < i)%nat -> xs !! i' = Some y' -> ~ y' == x) ->
  argmax_eq xs x = Returned i.
Proof.
  intros Hi Hy Hbefore. unfold argmax_eq.
  destruct xs as [|z xs]; [discriminate|].
  rewrite (first_index_found (z :: xs) x i y Hi Hy Hbefore). reflexivity.
Qed.

Lemma argmax_eq_absent (xs : list Q) (x : Q) :
  xs <> [] -> (forall y : Q, In y xs -> ~ y == x) -> argmax_eq xs x = Returned 0%nat.
Proof.
  intros Hne Hall. unfold argmax_eq. destruct xs as [|z xs]; [congruence|].
  rewrite (first_index_absent (z :: xs) x Hall). reflexivity.
Qed.

(** A point on the grid is mapped to its own indices, when no earlier period
    and no earlier velocity has the same value. *)
Theorem get_point_index_round_trip (veloscale_ periods : list Q) (i j : nat) (T v : Q) :
  periods !! i = Some T -> veloscale_ !! j = Some v ->
  (forall (i' : nat) (T' : Q), (i' < i)%nat -> periods !! i' = Some T' -> ~ T' == T) ->
  (forall (j' : nat) (v' : Q), (j' < j)%nat -> veloscale_ !! j' = Some v' -> ~ v' == v) ->
  get_point_index (T, v) veloscale_ periods = Returned (i, j).
Proof.
  intros Hi Hj Hper Hvel. unfold get_point_index.
  rewrite (argmax_eq_found periods T i T Hi (Qeq_refl T) Hper). simpl.
  rewrite (argmax_eq_found veloscale_ v j v Hj (Qeq_refl v) Hvel). reflexivity.
Qed.

Lemma get_point_index_round_trip_witness :
  get_point_index (2, 7 # 2) (veloscale ridge_combination) ridge_periods
  = Returned (1%nat, 3%nat).
Proof.
  apply (get_point_index_round_trip (veloscale ridge_combination) ridge_periods
           1 3 2 (7 # 2)).
  - reflexivity.
  - reflexivity.
  - intros i' T' Hlt Hl. destruct i' as [|i']; [|lia].
    injection Hl as <-. discriminate.
  - intros j' v' Hlt Hl.
    destruct j' as [|[|[|j']]]; [| | |lia]; injection Hl as <-; discriminate.
Defined.

(** A period that is not among the periods is not refused: the point is
    mapped to the first period. *)
Theorem get_point_index_off_grid (veloscale_ periods : list Q) (T v : Q) :
  periods <> [] -> veloscale_ <> [] ->
  (forall T' : Q, In T' periods -> ~ T' == T) ->
  exists j : nat,
    get_point_index (T, v) veloscale_ periods = Returned (0%nat, j)
    /\ (j < length veloscale_)%nat.
Proof.
  intros Hp Hv Hout. unfold get_point_index.
  rewrite (argmax_eq_absent periods T Hp Hout). simpl.
  destruct (argmax_eq veloscale_ v) as [j|e] eqn:Hj.
  - exists j. split; [reflexivity|]. eapply argmax_eq_lt. exact Hj.
  - unfold argmax_eq in Hj. destruct veloscale_; [congruence|discriminate].
Qed.

Lemma get_point_index_off_grid_witness :
  exists j : nat,
    get_point_index (3 # 2, 3) (veloscale ridge_combination) ridge_periods
    = Returned (0%nat, j)
    /\ (j < length (veloscale ridge_combination))%nat.
Proof.
  apply (get_point_index_off_grid (veloscale ridge_combination) ridge_periods (3 # 2) 3).
  - discriminate.
  - discriminate.
  - intros T' [<-|[<-|[]]]; discriminate.
Defined.

(** [get_point_index] raises exactly when one of the two arrays is empty,
    and then a [ValueError]. *)
Theorem get_point_index_raises_on_empty (p : point) (veloscale_ periods : list Q) :
  is_returned (get_point_index p veloscale_ periods)
  = negb (is_empty periods) && negb (is_empty veloscale_)
  /\ (is_empty periods || is_empty veloscale_ = true ->
      get_point_index p veloscale_ periods = Raised ValueError).
Proof.
  destruct p as [T v]. unfold get_point_index, argmax_eq.
  destruct periods as [|T0 ps]; destruct veloscale_ as [|v0 vs]; simpl;
    split; try reflexivity; try discriminate.
Qed.

Lemma np_getitem_of_nat {A : Type} (xs : list A) (i : nat) (x : A) :
  xs !! i = Some x -> np_getitem xs (Z.of_nat i) = Returned x.
Proof.
  intros Hi. unfold np_getitem.
  apply lookup_lt_Some in Hi as Hlt.
  assert (H0 : (0 <=? Z.of_nat i)%Z = true) by (apply Z.leb_le; lia).
  assert (H1 : (Z.of_nat i <? Z.of_nat (length xs))%Z = true) by (apply Z.ltb_lt; lia).
  rewrite H0, H1. simpl. rewrite Nat2Z.id. unfold getitem. rewrite Hi. reflexivity.
Qed.

(** For a point on the grid [get_point_coord] gives the point back together
    with the value of the matrix there. *)
Theorem get_point_coord_round_trip (veloscale_ periods : list Q)
    (vmatrix_ : list (list Q)) (i j : nat) (T v x : Q) (row : list Q) :
  periods !! i = Some T -> veloscale_ !! j = Some v ->
  (forall (i' : nat) (T' : Q), (i' < i)%nat -> periods !! i' = Some T' -> ~ T' == T) ->
  (forall (j' : nat) (v' : Q), (j' < j)%nat -> veloscale_ !! j' = Some v' -> ~ v' == v) ->
  vmatrix_ !! i = Some row -> row !! j = Some x ->
  get_point_coord veloscale_ periods vmatrix_ None (Some (T, v))
  = Returned (Some (T, v, x)).
Proof.
  intros Hi Hj Hper Hvel Hrow Hx. unfold get_point_coord.
  rewrite (get_point_index_round_trip veloscale_ periods i j T v Hi Hj Hper Hvel).
  simpl. unfold coord_at_index.
  rewrite (np_getitem_of_nat periods i T Hi). simpl.
  rewrite (np_getitem_of_nat veloscale_ j v Hj). simpl.
  rewrite (np_getitem_of_nat vmatrix_ i row Hrow). simpl.
  rewrite (np_getitem_of_nat row j x Hx). reflexivity.
Qed.

Lemma get_point_coord_round_trip_witness :
  get_point_coord (veloscale ridge_combination) ridge_periods
    (vmatrix ridge_combination) None (Some (2, 7 # 2))
  = Returned (Some (2, 7 # 2, 6 # 10)).
Proof.
  apply (get_point_coord_round_trip (veloscale ridge_combination) ridge_periods
           (vmatrix ridge_combination) 1 3 2 (7 # 2) (6 # 10)
           [0; 9 # 10; 2 # 10; 6 # 10; 0]).
  - reflexivity.
  - reflexivity.
  - intros i' T' Hlt Hl. destruct i' as [|i']; [|lia].
    injection Hl as <-. discriminate.
  - intros j' v' Hlt Hl.
    destruct j' as [|[|[|j']]]; [| | |lia]; injection Hl as <-; discriminate.
  - reflexivity.
  - reflexivity.
Defined.

(** ** DispersionTracker: the candidates of a column *)

Lemma Qlt_bool_irrefl (x : Q) : Qlt_bool x x = false.
Proof. apply Qlt_bool_false_iff. apply Qle_refl. Qed.

Lemma greater_than_neighbours_interior (xs : list Q) (i : nat) :
  (i < length xs)%nat -> greater_than_neighbours xs i = true ->
  (0 < i)%nat /\ (i + 1 < length xs)%nat.
Proof.
  intros Hi Hg. unfold greater_than_neighbours in Hg.
  apply andb_true_iff in Hg. destruct Hg as [Hnext Hprev]. split.
  - destruct i as [|i]; [|lia]. exfalso.
    assert (E : take_clip xs (Z.of_nat 0 - 1) = take_clip xs (Z.of_nat 0)).
    { unfold take_clip. f_equal; lia. }
    rewrite E, Qlt_bool_irrefl in Hprev. discriminate.
  - destruct (Nat.eq_dec (i + 1)%nat (length xs)) as [Hlast|Hne]; [|lia]. exfalso.
    assert (E : take_clip xs (Z.of_nat i + 1) = take_clip xs (Z.of_nat i)).
    { unfold take_clip. f_equal; lia. }
    rewrite E, Qlt_bool_irrefl in Hnext. discriminate.
Qed.

Lemma extremums_In (xcorr : list Q) (i : nat) :
  In i (extremums xcorr) <-> In i (argrelextrema_greater xcorr).
Proof.
  unfold extremums. rewrite in_app_iff. tauto.
Qed.

(** The first and the last sample of a column are never candidates, every
    candidate is strictly greater than the samples beside it, and the
    candidates to the left and to the right of the seed are the candidates
    at or below, and at or above, its velocity index. *)
Theorem candidates_are_interior_maxima (xcorr : list Q) (ivelo : nat) :
  (forall i : nat, In i (extremums xcorr) ->
     (0 < i)%nat /\ (i + 1 < length xcorr)%nat
     /\ nth (i - 1) xcorr 0 < nth i xcorr 0 /\ nth (i + 1) xcorr 0 < nth i xcorr 0)
  /\ (forall i : nat, In i (extremums_left xcorr ivelo)
        <-> In i (extremums xcorr) /\ (i <= ivelo)%nat)
  /\ (forall i : nat, In i (extremums_right xcorr ivelo)
        <-> In i (extremums xcorr) /\ (ivelo <= i)%nat).
Proof.
  split; [|split].
  - intros i Hin. apply extremums_In in Hin. unfold argrelextrema_greater in Hin.
    apply filter_In in Hin. destruct Hin as [Hseq Hg].
    apply in_seq in Hseq. destruct Hseq as [_ Hlt]. simpl in Hlt.
    destruct (greater_than_neighbours_interior xcorr i Hlt Hg) as [H0 H1].
    split; [exact H0|]. split; [exact H1|].
    unfold greater_than_neighbours in Hg. apply andb_true_iff in Hg.
    destruct Hg as [Hnext Hprev].
    apply Qlt_bool_iff in Hnext. apply Qlt_bool_iff in Hprev.
    unfold take_clip in Hnext, Hprev.
    replace (Z.to_nat (Z.min (Z.max (Z.of_nat i) 0) (Z.of_nat (length xcorr) - 1)))
      with i in * by lia.
    replace (Z.to_nat (Z.min (Z.max (Z.of_nat i + 1) 0) (Z.of_nat (length xcorr) - 1)))
      with (i + 1)%nat in * by lia.
    replace (Z.to_nat (Z.min (Z.max (Z.of_nat i - 1) 0) (Z.of_nat (length xcorr) - 1)))
      with (i - 1)%nat in * by lia.
    split; assumption.
  - intros i. unfold extremums_left. rewrite filter_In, Z.leb_le.
    split; intros [H1 H2]; (split; [exact H1|lia]).
  - intros i. unfold extremums_right. rewrite filter_In, Z.geb_le.
    split; intros [H1 H2]; (split; [exact H1|lia]).
Qed.

(** ** DispersionTracker: the seed of [plot_vmatrix] *)

(** A point that [plot_vmatrix] returns is the next click, its first
    coordinate is at least 20, and the object is left as it was; a point is
    only returned while the dispersion array counts as false. *)
Theorem plot_vmatrix_seed (self : Combination) (periods : list Q)
    (clicks : list point) (p : point) (self' : Combination) (clicks' : list point) :
  plot_vmatrix self periods clicks = Returned (Some p, self', clicks') ->
  20 <= fst p /\ self' = self /\ clicks = p :: clicks'
  /\ dispersion_truth (dispersion self) = Returned false.
Proof.
  unfold plot_vmatrix.
  destruct (dispersion_truth (dispersion self)) as [[|]|e]; simpl; try discriminate.
  - destruct (length periods =? length (default [] (dispersion self)))%nat; simpl;
      [|discriminate].
    destruct clicks as [|c rest]; simpl; [discriminate|].
    destruct (Qlt_bool (fst c) 20); discriminate.
  - destruct clicks as [|c rest]; simpl; [discriminate|].
    destruct (Qlt_bool (fst c) 20) eqn:Hlow; [discriminate|].
    intros H. injection H as <- <- <-.
    apply Qlt_bool_false_iff in Hlow. auto.
Qed.

Lemma plot_vmatrix_seed_witness :
  20 <= fst ((20, 2) : point) /\ loop_combination = loop_combination
  /\ [(20, 2); (30, 3)] = ((20, 2) : point) :: [(30, 3)]
  /\ dispersion_truth (dispersion loop_combination) = Returned false.
Proof.
  apply (plot_vmatrix_seed loop_combination [20] [(20, 2); (30, 3)] (20, 2)
           loop_combination [(30, 3)]).
  reflexivity.
Defined.

(** With a dispersion array of two or more entries the extraction stops in
    [plot_vmatrix], on the truth value of the array: it raises [ValueError]
    before any click is read and before anything is tracked. *)
Theorem extraction_needs_single_entry (fuel : nat) (self : Combination)
    (periods : list Q) (clicks : list point) (d : list Q) :
  dispersion self = Some d -> (2 <= length d)%nat ->
  plot_vmatrix self periods clicks = Raised ValueError
  /\ extraction_of_phasevelo fuel self periods clicks
     = ({| obj := self; resolved := [] |}, clicks, Fail ValueError).
Proof.
  intros Hd Hlen.
  assert (Hplot : plot_vmatrix self periods clicks = Raised ValueError).
  { unfold plot_vmatrix. rewrite Hd. simpl.
    destruct d as [|x [|y rest]]; simpl in Hlen; try lia. reflexivity. }
  split; [exact Hplot|].
  unfold extraction_of_phasevelo. rewrite Hplot. reflexivity.
Qed.

Lemma extraction_needs_single_entry_witness :
  plot_vmatrix ridge_combination ridge_periods [(20, 3)] = Raised ValueError
  /\ extraction_of_phasevelo 5 ridge_combination ridge_periods [(20, 3)]
     = ({| obj := ridge_combination; resolved := [] |}, [(20, 3)], Fail ValueError).
Proof.
  apply (extraction_needs_single_entry 5 ridge_combination ridge_periods [(20, 3)]
           [0; 0]).
  - reflexivity.
  - simpl. lia.
Defined.

(** ** WindowIsolator: when the call returns, and what it returns *)

Lemma for_each_returned {A B : Type} (f : A -> outcome B) (xs : list A) :
  is_returned (for_each f xs) = forallb (fun x => is_returned (f x)) xs.
Proof.
  induction xs as [|a xs IH]; simpl; [reflexivity|].
  destruct (f a) as [b|e]; simpl; [|reflexivity].
  rewrite <- IH. destruct (for_each f xs); reflexivity.
Qed.

Lemma for_each_lookup_inv {A B : Type} (f : A -> outcome B) (xs : list A) (ys : list B)
    (i : nat) (y : B) :
  for_each f xs = Returned ys -> ys !! i = Some y ->
  exists x, xs !! i = Some x /\ f x = Returned y.
Proof.
  intros Hrun Hy.
  assert (Hlt : (i < length xs)%nat).
  { rewrite <- (for_each_length f xs ys Hrun). eapply lookup_lt_Some. exact Hy. }
  destruct (lookup_lt_is_Some_2 xs i Hlt) as [x Hx].
  destruct (for_each_lookup f xs ys Hrun i x Hx) as (y' & Hy' & Hf).
  exists x. split; [exact Hx|]. congruence.
Qed.

Lemma forallb_pointwise {A : Type} (f g : A -> bool) (xs : list A) :
  (forall x, f x = g x) -> forallb f xs = forallb g xs.
Proof.
  intros H. induction xs as [|a xs IH]; simpl; [reflexivity|].
  rewrite H, IH. reflexivity.
Qed.

Lemma forallb_const {A : Type} (b : bool) (xs : list A) :
  forallb (fun _ => b) xs = is_empty xs || b.
Proof.
  induction xs as [|a xs IH]; simpl; [reflexivity|].
  rewrite IH. destruct b, (is_empty xs); reflexivity.
Qed.

Lemma is_empty_length {A B : Type} (xs : list A) (ys : list B) :
  length xs = length ys -> is_empty xs = is_empty ys.
Proof. destruct xs, ys; simpl; intros H; congruence. Qed.

Lemma arrivals_cover (group_arr periods : list Q) (start : nat) :
  forallb (fun x : nat * Q => is_returned (getitem group_arr (fst x)))
          (zip (seq start (length periods)) periods)
  = is_empty periods || (start + length periods <=? length group_arr)%nat.
Proof.
  revert start. induction periods as [|T0 rest IH]; intros start; [reflexivity|].
  change (zip (seq start (length (T0 :: rest))) (T0 :: rest))
    with ((start, T0) :: zip (seq (S start) (length rest)) rest).
  cbn [forallb fst]. rewrite IH. unfold getitem.
  cbn [is_empty orb length].
  destruct (group_arr !! start) as [a|] eqn:Ha; cbn [is_returned andb].
  - apply lookup_lt_Some in Ha.
    destruct rest as [|T1 rest]; cbn [is_empty orb length].
    + symmetry. apply Nat.leb_le. lia.
    + destruct (Nat.leb_spec (S start + S (length rest)) (length group_arr)),
        (Nat.leb_spec (start + S (S (length rest))) (length group_arr));
        try reflexivity; lia.
  - apply lookup_ge_None in Ha. symmetry. apply Nat.leb_gt. lia.
Qed.

Section WindowReturns.

Variable cos_pi : Q -> Q.

(** The call returns exactly when the trace is empty or its sampling rate is
    not zero, every period has an arrival, and, if the plot is asked for, the
    trace has a sample and 80 is one of the periods. *)
Theorem movement_windows_construction_returns_iff (tr : Trace)
    (periods group_arr : list Q) (reftime : Q) (halfwidth : Z) (debug : bool) :
  is_returned
    (movement_windows_construction cos_pi tr periods group_arr reftime halfwidth debug)
  = (is_empty (data tr) || negb (Qeq_bool (sampling_rate tr) 0))
    && (length periods <=? length group_arr)%nat
    && (if debug
        then negb (is_empty (data tr)) && existsb (fun T0 => Qeq_bool T0 80) periods
        else true).
Proof.
  unfold movement_windows_construction.
  assert (Hts : is_returned (timescale_of tr)
                = is_empty (data tr) || negb (Qeq_bool (sampling_rate tr) 0)).
  { unfold timescale_of. rewrite for_each_returned.
    rewrite (forallb_pointwise _ (fun _ => negb (Qeq_bool (sampling_rate tr) 0))).
    - rewrite forallb_const. f_equal. apply is_empty_length.
      rewrite length_seq. reflexivity.
    - intros x. unfold sample_time.
      destruct (Qeq_bool (sampling_rate tr) 0); reflexivity. }
  destruct (timescale_of tr) as [timescale|e] eqn:Hrun; simpl in Hts;
    rewrite <- Hts; simpl; [|reflexivity].
  match goal with
  | |- context [for_each ?f ?xs] =>
      assert (Hrows : is_returned (for_each f xs)
                      = (length periods <=? length group_arr)%nat)
  end.
  { rewrite for_each_returned.
    rewrite (forallb_pointwise _ (fun x : nat * Q => is_returned (getitem group_arr (fst x)))).
    - rewrite arrivals_cover. simpl.
      destruct periods; simpl; reflexivity.
    - intros [i T0]. simpl. destruct (getitem group_arr i); reflexivity. }
  match goal with
  | |- context [for_each ?f ?xs] => destruct (for_each f xs) as [rows|e']
  end; simpl in Hrows; rewrite <- Hrows; simpl; [|reflexivity].
  destruct debug; simpl; [|reflexivity].
  assert (Hlen : length timescale = length (data tr)).
  { unfold timescale_of in Hrun. apply for_each_length in Hrun.
    rewrite Hrun, length_seq. reflexivity. }
  rewrite <- (is_empty_length timescale (data tr) Hlen).
  unfold plot_isolation. destruct timescale as [|t ts]; simpl; [reflexivity|].
  destruct (existsb (fun T0 => Qeq_bool T0 80) periods); reflexivity.
Qed.

(** The matrix that is returned has one row per period and one entry per
    sample of the trace in every row. *)
Theorem movement_windows_construction_shape (tr : Trace) (periods group_arr : list Q)
    (reftime : Q) (halfwidth : Z) (debug : bool) (isotr : list (list Q)) :
  movement_windows_construction cos_pi tr periods group_arr reftime halfwidth debug
    = Returned isotr ->
  length isotr = length periods
  /\ Forall (fun row => length row = length (data tr)) isotr.
Proof.
  intros Hrun. unfold movement_windows_construction in Hrun.
  destruct (timescale_of tr) as [timescale|e] eqn:Hts; [|discriminate].
  simpl in Hrun.
  match type of Hrun with
  | context [for_each ?f ?xs] => destruct (for_each f xs) as [rows|e] eqn:Hrows
  end; [|discriminate].
  simpl in Hrun.
  assert (isotr = rows) as ->.
  { destruct debug; [destruct (plot_isolation timescale periods 80)|];
      simpl in Hrun; congruence. }
  assert (Hlen : length timescale = length (data tr)).
  { unfold timescale_of in Hts. apply for_each_length in Hts.
    rewrite Hts, length_seq. reflexivity. }
  split.
  - rewrite (for_each_length _ _ _ Hrows), length_zip_with, length_seq. lia.
  - apply Forall_lookup. intros i row Hrow.
    destruct (for_each_lookup_inv _ _ _ i row Hrows Hrow) as ([j T0] & _ & Hf).
    simpl in Hf. destruct (getitem group_arr j) as [a|e]; [|discriminate].
    simpl in Hf. injection Hf as <-.
    unfold isolate_row. rewrite length_zip_with, length_map. lia.
Qed.

Lemma window_weight_flat (halfwidth : Z) (T0 arrival time : Q) :
  0 < T0 -> (0 <= halfwidth)%Z ->
  arrival - inject_Z halfwidth * T0 <= time ->
  time <= arrival + inject_Z halfwidth * T0 ->
  window_weight cos_pi halfwidth T0 arrival time = 1.
Proof.
  intros HT Hn Hlo Hhi. unfold window_weight.
  set (nT := inject_Z halfwidth * T0) in *.
  destruct (Qlt_bool time (arrival + nT + T0 / 2) && Qlt_bool (arrival + nT) time) eqn:E3.
  { q_tests. exfalso. lra. }
  destruct (Qlt_bool time (arrival - nT) && Qlt_bool (arrival - nT - T0 / 2) time) eqn:E2.
  { q_tests. exfalso. lra. }
  destruct (Qle_bool time (arrival + nT) && Qle_bool (arrival - nT) time) eqn:E1.
  { reflexivity. }
  q_tests. exfalso. destruct E1 as [E1|E1]; q_tests; lra.
Qed.

Lemma window_weight_taper (halfwidth : Z) (T0 arrival time : Q) :
  0 < T0 -> (0 <= halfwidth)%Z ->
  (arrival - inject_Z halfwidth * T0 - T0 / 2 < time
   /\ time < arrival - inject_Z halfwidth * T0)
  \/ (arrival + inject_Z halfwidth * T0 < time
      /\ time < arrival + inject_Z halfwidth * T0 + T0 / 2) ->
  window_weight cos_pi halfwidth T0 arrival time
  = cos_pi ((Qabs (time - arrival) - inject_Z halfwidth * T0) / T0).
Proof.
  intros HT Hn Hin.
  assert (Hn' : 0 <= inject_Z halfwidth).
  { change 0 with (inject_Z 0). rewrite <- Zle_Qle. exact Hn. }
  assert (HnT : 0 <= inject_Z halfwidth * T0).
  { apply Qmult_le_0_compat; [exact Hn'|]. apply Qlt_le_weak. exact HT. }
  unfold window_weight.
  set (nT := inject_Z halfwidth * T0) in *.
  destruct (Qlt_bool time (arrival + nT + T0 / 2) && Qlt_bool (arrival + nT) time) eqn:E3.
  { reflexivity. }
  destruct (Qlt_bool time (arrival - nT) && Qlt_bool (arrival - nT - T0 / 2) time) eqn:E2.
  { reflexivity. }
  exfalso. q_tests. destruct Hin as [[H1 H2]|[H1 H2]].
  - destruct E2 as [E2|E2]; q_tests; lra.
  - destruct E3 as [E3|E3]; q_tests; lra.
Qed.

(** Inside the window of a period [T0 > 0] with half-width [n >= 0]: within
    [n T0] of the arrival a sample is multiplied by 1, and in the two bands
    of width [T0/2] beyond by [cos(pi (|t - arrival| - n T0) / T0)]. *)
Theorem window_flat_and_taper (tr : Trace) (periods group_arr : list Q) (reftime : Q)
    (halfwidth : Z) (debug : bool) (isotr : list (list Q))
    (iperiod : nat) (T0 arrival : Q) :
  movement_windows_construction cos_pi tr periods group_arr reftime halfwidth debug
    = Returned isotr ->
  periods !! iperiod = Some T0 -> group_arr !! iperiod = Some arrival ->
  0 < T0 -> (0 <= halfwidth)%Z ->
  exists row,
    isotr !! iperiod = Some row /\
    forall (k : nat) (x : Q), data tr !! k = Some x ->
      let time := starttime tr + inject_Z (Z.of_nat k) / sampling_rate tr in
      let nT := inject_Z halfwidth * T0 in
      (arrival - nT <= time /\ time <= arrival + nT -> row !! k = Some (x * 1))
      /\ ((arrival - nT - T0 / 2 < time /\ time < arrival - nT)
          \/ (arrival + nT < time /\ time < arrival + nT + T0 / 2) ->
          row !! k = Some (x * cos_pi ((Qabs (time - arrival) - nT) / T0))).
Proof.
  intros Hrun HT Harr Hpos Hn.
  destruct (movement_windows_construction_row cos_pi _ _ _ _ _ _ _ _ _ _ Hrun HT Harr)
    as (timescale & Hts & Hrow).
  eexists. split; [exact Hrow|].
  intros k x Hx time nT.
  assert (Hk : (k < npts tr)%nat) by (apply lookup_lt_Some in Hx; exact Hx).
  pose proof (timescale_lookup _ _ _ Hts Hk) as Ht.
  rewrite (isolate_row_lookup cos_pi halfwidth T0 arrival timescale (data tr) k x _ Hx Ht).
  fold time. split.
  - intros [Hlo Hhi].
    rewrite (window_weight_flat halfwidth T0 arrival time Hpos Hn Hlo Hhi). reflexivity.
  - intros Hin.
    rewrite (window_weight_taper halfwidth T0 arrival time Hpos Hn Hin). reflexivity.
Qed.

End WindowReturns.

Lemma movement_windows_construction_shape_witness :
  exists isotr : list (list Q),
    movement_windows_construction (fun _ => 1 # 2) window_example_trace [4] [8] 0 1 false
      = Returned isotr
    /\ length isotr = 1%nat
    /\ Forall (fun row => length row = 16%nat) isotr.
Proof.
  destruct (movement_windows_construction (fun _ => 1 # 2) window_example_trace
              [4] [8] 0 1 false) as [isotr|e] eqn:Hrun.
  - exists isotr. split; [reflexivity|].
    apply (movement_windows_construction_shape (fun _ => 1 # 2) window_example_trace
             [4] [8] 0 1 false isotr Hrun).
  - vm_compute in Hrun. discriminate Hrun.
Defined.

(** Sample 5 lies in the flat part of the window, sample 3 in its left
    taper. *)
Lemma window_flat_and_taper_witness :
  exists isotr row,
    movement_windows_construction (fun _ => 1 # 2) window_example_trace [4] [8] 0 1 false
      = Returned isotr /\
    isotr !! 0%nat = Some row /\
    row !! 5%nat = Some (15 * 1) /\ row !! 3%nat = Some (13 * (1 # 2)).
Proof.
  edestruct (window_flat_and_taper (fun _ => 1 # 2) window_example_trace [4] [8] 0 1 false)
    as (row & Hrow & Hsamples).
  - vm_compute. reflexivity.
  - instantiate (1 := 4). instantiate (1 := 0%nat). reflexivity.
  - instantiate (1 := 8). reflexivity.
  - reflexivity.
  - lia.
  - eexists. exists row. split; [vm_compute; reflexivity|]. split; [exact Hrow|].
    split.
    + destruct (Hsamples 5%nat 15 eq_refl) as (Hflat & _).
      apply Hflat. split; vm_compute; discriminate.
    + destruct (Hsamples 3%nat 13 eq_refl) as (_ & Htaper).
      apply Htaper. left. split; reflexivity.
Defined.

(** ** GroupArrivalEstimator *)

(** What [argmax_from] keeps while it scans: the best value so far sits at
    the best index, nothing scanned is greater, and everything before the
    best index is strictly less. *)
Lemma argmax_from_spec (xs pre : list Q) (best_i : nat) (best : Q) :
  pre !! best_i = Some best ->
  (forall y : Q, In y pre -> y <= best) ->
  (forall (k' : nat) (y : Q), (k' < best_i)%nat -> pre !! k' = Some y -> y < best) ->
  exists m : Q,
    (pre ++ xs) !! argmax_from best_i best (length pre) xs = Some m
    /\ (forall y : Q, In y (pre ++ xs) -> y <= m)
    /\ (forall (k' : nat) (y : Q),
          (k' < argmax_from best_i best (length pre) xs)%nat ->
          (pre ++ xs) !! k' = Some y -> y < m).
Proof.
  revert pre best_i best. induction xs as [|x rest IH]; intros pre best_i best Hat Hall Hbefore.
  - simpl. rewrite app_nil_r. exists best. auto.
  - simpl. destruct (Qlt_bool best x) eqn:Hlt.
    + apply Qlt_bool_iff in Hlt.
      destruct (IH (pre ++ [x]) (length pre) x) as (m & Hm & Hmax & Hfirst).
      * rewrite lookup_app_r by lia. rewrite Nat.sub_diag. reflexivity.
      * intros y Hy. apply in_app_or in Hy. destruct Hy as [Hy|[<-|[]]].
        -- specialize (Hall y Hy). lra.
        -- apply Qle_refl.
      * intros k' y Hk Hy. rewrite lookup_app_l in Hy by exact Hk.
        assert (Hin : In y pre).
        { apply list_elem_of_In. eapply list_elem_of_lookup_2. exact Hy. }
        specialize (Hall y Hin). lra.
      * rewrite length_app in Hm, Hfirst. simpl in Hm, Hfirst.
        rewrite Nat.add_1_r in Hm, Hfirst.
        rewrite <- app_assoc in Hm, Hmax, Hfirst. simpl in Hm, Hmax, Hfirst.
        exists m. auto.
    + apply Qlt_bool_false_iff in Hlt.
      destruct (IH (pre ++ [x]) best_i best) as (m & Hm & Hmax & Hfirst).
      * apply lookup_lt_Some in Hat as Hlen.
        rewrite lookup_app_l by exact Hlen. exact Hat.
      * intros y Hy. apply in_app_or in Hy. destruct Hy as [Hy|[<-|[]]].
        -- apply Hall. exact Hy.
        -- exact Hlt.
      * intros k' y Hk Hy. apply lookup_lt_Some in Hat as Hlen.
        rewrite lookup_app_l in Hy by lia. eapply Hbefore; eassumption.
      * rewrite length_app in Hm, Hfirst. simpl in Hm, Hfirst.
        rewrite Nat.add_1_r in Hm, Hfirst.
        rewrite <- app_assoc in Hm, Hmax, Hfirst. simpl in Hm, Hmax, Hfirst.
        exists m. auto.
Qed.

Lemma np_argmax_spec (xs : list Q) (k : nat) :
  np_argmax xs = Returned k ->
  exists m : Q,
    xs !! k = Some m
    /\ (forall y : Q, In y xs -> y <= m)
    /\ (forall (k' : nat) (y : Q), (k' < k)%nat -> xs !! k' = Some y -> y < m).
Proof.
  unfold np_argmax. destruct xs as [|x rest]; [discriminate|].
  intros H. injection H as <-.
  apply (argmax_from_spec rest [x] 0 x).
  - reflexivity.
  - intros y [<-|[]]. apply Qle_refl.
  - intros k' y Hk. lia.
Qed.

Lemma find_signal_no_match (amp : list (list Q)) (periods : list Q) (period : Q)
    (iperiod : nat) (signal : option (list Q)) :
  existsb (fun T0 => Qeq_bool period T0) periods = false ->
  find_signal amp periods period iperiod signal = Returned signal.
Proof.
  revert iperiod. induction periods as [|T0 rest IH]; intros iperiod Hno; [reflexivity|].
  simpl in *. apply orb_false_iff in Hno. destruct Hno as [H0 Hrest].
  rewrite H0. apply IH. exact Hrest.
Qed.

Section GroupArrivalFacts.

Variable FTAN : list Q -> Q -> list Q -> Q -> outcome (list (list Q) * list (list Q)).

Lemma measure_group_arrival_inv (tr : Trace) (periods : list Q) (alpha : Q)
    (debug : bool) (reftime : Q) (group_arr : list Q) :
  measure_group_arrival FTAN tr periods alpha debug = Returned (reftime, group_arr) ->
  exists (amp phi : list (list Q)),
    Qeq_bool (sampling_rate tr) 0 = false
    /\ FTAN (data tr) (1 / sampling_rate tr) periods alpha = Returned (amp, phi)
    /\ for_each (group_arrival_at tr amp (1 / sampling_rate tr)) (seq 0 (length periods))
       = Returned group_arr
    /\ (if debug then plot_analytical_amp amp periods 80 else Returned tt) = Returned tt
    /\ reftime = sac_reftime tr.
Proof.
  unfold measure_group_arrival.
  destruct (Qeq_bool (sampling_rate tr) 0) eqn:Hrate; simpl; [discriminate|].
  destruct (FTAN (data tr) (1 / sampling_rate tr) periods alpha) as [[amp phi]|e]
    eqn:HF; simpl; [|discriminate].
  destruct (for_each (group_arrival_at tr amp (1 / sampling_rate tr))
              (seq 0 (length periods))) as [g|e] eqn:Hg; simpl; [|discriminate].
  destruct (if debug then plot_analytical_amp amp periods 80 else Returned tt)
    as [[]|e] eqn:Hplot; simpl; [|discriminate].
  intros H. injection H as <- <-. exists amp, phi.
  repeat split; try reflexivity; assumption.
Qed.

(** A returning call gives the reference time of the header and one arrival
    per period, and each arrival is the time of the first sample at which the
    envelope of its period is greatest. *)
Theorem group_arrivals_are_first_maxima (tr : Trace) (periods : list Q) (alpha : Q)
    (debug : bool) (reftime : Q) (group_arr : list Q) :
  measure_group_arrival FTAN tr periods alpha debug = Returned (reftime, group_arr) ->
  reftime = sac_reftime tr
  /\ length group_arr = length periods
  /\ exists (amp phi : list (list Q)),
       FTAN (data tr) (1 / sampling_rate tr) periods alpha = Returned (amp, phi)
       /\ forall (i : nat) (arrival : Q), group_arr !! i = Some arrival ->
            exists (row : list Q) (k : nat) (m : Q),
              amp !! i = Some row /\ row !! k = Some m
              /\ arrival = starttime tr + inject_Z (Z.of_nat k) * (1 / sampling_rate tr)
              /\ (forall y : Q, In y row -> y <= m)
              /\ (forall (k' : nat) (y : Q), (k' < k)%nat -> row !! k' = Some y -> y < m).
Proof.
  intros Hrun. apply measure_group_arrival_inv in Hrun.
  destruct Hrun as (amp & phi & _ & HF & Harr & _ & ->).
  split; [reflexivity|]. split.
  { rewrite (for_each_length _ _ _ Harr). apply length_seq. }
  exists amp, phi. split; [exact HF|].
  intros i arrival Hi.
  destruct (for_each_lookup_inv _ _ _ i arrival Harr Hi) as (j & Hj & Hat).
  apply lookup_seq in Hj. destruct Hj as [-> _]. simpl in Hat.
  unfold group_arrival_at, getitem in Hat.
  destruct (amp !! i) as [row|]; [|discriminate]. simpl in Hat.
  destruct (np_argmax row) as [k|e] eqn:Hk; [|discriminate]. simpl in Hat.
  injection Hat as <-.
  destruct (np_argmax_spec row k Hk) as (m & Hm & Hmax & Hfirst).
  exists row, k, m. auto.
Qed.

(** With the plot asked for, the call raises whenever none of the periods
    equals 80. *)
Theorem measure_group_arrival_debug_needs_80 (tr : Trace) (periods : list Q) (alpha : Q) :
  existsb (fun T0 => Qeq_bool 80 T0) periods = false ->
  is_returned (measure_group_arrival FTAN tr periods alpha true) = false.
Proof.
  intros Hno.
  destruct (measure_group_arrival FTAN tr periods alpha true) as [[reftime g]|e] eqn:Hrun;
    [|reflexivity].
  exfalso. apply measure_group_arrival_inv in Hrun.
  destruct Hrun as (amp & phi & _ & _ & _ & Hplot & _).
  unfold plot_analytical_amp in Hplot.
  rewrite (find_signal_no_match amp periods 80 0 None Hno) in Hplot.
  discriminate Hplot.
Qed.

End GroupArrivalFacts.

Lemma group_arrivals_are_first_maxima_witness :
  0 = sac_reftime short_trace
  /\ length [100 + 1 * (1 / 2); 100 + 1 * (1 / 2)] = length [40; 80]
  /\ exists (amp phi : list (list Q)),
       example_FTAN (data short_trace) (1 / sampling_rate short_trace) [40; 80] 1
       = Returned (amp, phi)
       /\ forall (i : nat) (arrival : Q),
            [100 + 1 * (1 / 2); 100 + 1 * (1 / 2)] !! i = Some arrival ->
            exists (row : list Q) (k : nat) (m : Q),
              amp !! i = Some row /\ row !! k = Some m
              /\ arrival = starttime short_trace
                           + inject_Z (Z.of_nat k) * (1 / sampling_rate short_trace)
              /\ (forall y : Q, In y row -> y <= m)
              /\ (forall (k' : nat) (y : Q), (k' < k)%nat -> row !! k' = Some y -> y < m).
Proof.
  apply (group_arrivals_are_first_maxima example_FTAN short_trace [40; 80] 1 true).
  reflexivity.
Defined.

Lemma measure_group_arrival_debug_needs_80_witness :
  is_returned (measure_group_arrival example_FTAN short_trace [20; 40] 1 true) = false.
Proof.
  apply (measure_group_arrival_debug_needs_80 example_FTAN short_trace [20; 40] 1).
  reflexivity.
Defined.

Section GroupArrivalSpan.

Variable FTAN : list Q -> Q -> list Q -> Q -> outcome (list (list Q) * list (list Q)).

(** When the envelope has one value per sample of the trace and the sampling
    rate is positive, every arrival lies within the time span of the trace. *)
Theorem group_arrivals_within_trace (tr : Trace) (periods : list Q) (alpha : Q)
    (debug : bool) (reftime : Q) (group_arr : list Q) :
  measure_group_arrival FTAN tr periods alpha debug = Returned (reftime, group_arr) ->
  0 < sampling_rate tr ->
  (forall amp phi : list (list Q),
      FTAN (data tr) (1 / sampling_rate tr) periods alpha = Returned (amp, phi) ->
      Forall (fun row => length row = length (data tr)) amp) ->
  Forall (fun arrival =>
            starttime tr <= arrival
            /\ arrival < starttime tr
                         + inject_Z (Z.of_nat (length (data tr))) / sampling_rate tr)
         group_arr.
Proof.
  intros Hrun Hrate Hshape.
  destruct (group_arrivals_are_first_maxima FTAN _ _ _ _ _ _ Hrun)
    as (_ & _ & amp & phi & HF & Harr).
  specialize (Hshape amp phi HF).
  apply Forall_lookup. intros i arrival Hi.
  destruct (Harr i arrival Hi) as (row & k & m & Hrow & Hk & -> & _).
  assert (Hlen : length row = length (data tr)).
  { eapply (proj1 (Forall_lookup _ amp) Hshape). exact Hrow. }
  apply lookup_lt_Some in Hk. rewrite Hlen in Hk.
  assert (Hd : 0 < / sampling_rate tr) by (apply Qinv_lt_0_compat; exact Hrate).
  assert (Hk0 : 0 <= inject_Z (Z.of_nat k)).
  { change 0 with (inject_Z 0). rewrite <- Zle_Qle. lia. }
  assert (Hkn : inject_Z (Z.of_nat k) < inject_Z (Z.of_nat (length (data tr)))).
  { rewrite <- Zlt_Qlt. lia. }
  unfold Qdiv.
  set (d := / sampling_rate tr) in *.
  set (a := inject_Z (Z.of_nat k)) in *.
  set (b := inject_Z (Z.of_nat (length (data tr)))) in *.
  assert (H1 : 0 <= a * d) by (apply Qmult_le_0_compat; [exact Hk0|lra]).
  assert (H2 : a * d < b * d) by (apply Qmult_lt_compat_r; assumption).
  split; lra.
Qed.

End GroupArrivalSpan.

Lemma group_arrivals_within_trace_witness :
  Forall (fun arrival =>
            starttime short_trace <= arrival
            /\ arrival < starttime short_trace
                         + inject_Z (Z.of_nat (length (data short_trace)))
                           / sampling_rate short_trace)
         [100 + 1 * (1 / 2); 100 + 1 * (1 / 2)].
Proof.
  apply (group_arrivals_within_trace example_FTAN short_trace [40; 80] 1 true 0).
  - reflexivity.
  - reflexivity.
  - intros amp phi H. injection H as <- _. repeat constructor.
Defined.

(** ** PairAssembler with the group-arrival stage of the source *)

Lemma build_vmatrix_stopped (cos_pi : Q -> Q)
    (arrival_stage : Trace -> list Q -> Q -> bool -> outcome (Q * list Q))
    (filter_stage : Trace -> list (list Q) -> list Q -> bool -> outcome (list (list Q)))
    (self : Combination) (periods : list Q) (alpha : Q) :
  build_vmatrix cos_pi arrival_stage filter_stage self periods alpha = Returned Stopped ->
  exists (t1 t2 : Q) (g1 g2 : list Q),
    arrival_stage (tr1 self) periods alpha true = Returned (t1, g1)
    /\ arrival_stage (tr2 self) periods alpha false = Returned (t2, g2)
    /\ (Qeq_bool t1 t2 = false \/ is_empty g1 || is_empty g2 = true).
Proof.
  unfold build_vmatrix.
  destruct (arrival_stage (tr1 self) periods alpha true) as [[t1 g1]|e]; [|discriminate].
  simpl.
  destruct (arrival_stage (tr2 self) periods alpha false) as [[t2 g2]|e]; [|discriminate].
  simpl. intros H. exists t1, t2, g1, g2. split; [reflexivity|]. split; [reflexivity|].
  destruct (Qeq_bool t1 t2); [|left; reflexivity]. simpl in H.
  destruct (is_empty g1 || is_empty g2); [right; reflexivity|]. exfalso.
  destruct (movement_windows_construction cos_pi (tr1 self) periods g1 t1 3 true);
    [|discriminate].
  simpl in H.
  destruct (movement_windows_construction cos_pi (tr2 self) periods g2 t1 3 false);
    [|discriminate].
  simpl in H.
  match type of H with
  | context [filter_stage ?a ?b ?c true] => destruct (filter_stage a b c true)
  end; [|discriminate].
  simpl in H.
  match type of H with
  | context [filter_stage ?a ?b ?c false] => destruct (filter_stage a b c false)
  end; discriminate.
Qed.

Section PipelineEnds.

Variable cos_pi : Q -> Q.
Variable FTAN : list Q -> Q -> list Q -> Q -> outcome (list (list Q) * list (list Q)).
Variable filter_stage :
  Trace -> list (list Q) -> list Q -> bool -> outcome (list (list Q)).

(** [measure_dispersion] ends normally in one way only: 80 is one of the
    periods and the two traces have different reference times, which is the
    [ReferenceTimeNotMatch] return.  In every other case it raises. *)
Theorem measure_dispersion_ends_only_on_mismatch (fuel : nat) (self : Combination)
    (periods : list Q) (alpha shift_len : Q) (clicks : list point) :
  is_done (snd (measure_dispersion cos_pi (measure_group_arrival FTAN) filter_stage
                  fuel self periods alpha shift_len clicks)) = true ->
  Qeq_bool (sac_reftime (tr1 self)) (sac_reftime (tr2 self)) = false
  /\ existsb (fun T0 => Qeq_bool 80 T0) periods = true.
Proof.
  unfold measure_dispersion.
  pose proof (build_vmatrix_not_built cos_pi (measure_group_arrival FTAN) filter_stage
                (set_dispersion self (Some (np_zeros (length periods)))) periods alpha)
    as Hnot.
  destruct (build_vmatrix cos_pi (measure_group_arrival FTAN) filter_stage
              (set_dispersion self (Some (np_zeros (length periods)))) periods alpha)
    as [[|r]|e] eqn:Hb; simpl in Hnot; try discriminate.
  intros _. apply build_vmatrix_stopped in Hb.
  destruct Hb as (t1 & t2 & g1 & g2 & H1 & H2 & Hcase). simpl in H1, H2.
  assert (H80 : existsb (fun T0 => Qeq_bool 80 T0) periods = true).
  { destruct (existsb (fun T0 => Qeq_bool 80 T0) periods) eqn:E; [reflexivity|].
    pose proof (measure_group_arrival_debug_needs_80 FTAN (tr1 self) periods alpha E)
      as Hraise.
    rewrite H1 in Hraise. discriminate Hraise. }
  split; [|exact H80].
  destruct (group_arrivals_are_first_maxima FTAN _ _ _ _ _ _ H1) as (-> & Hl1 & _).
  destruct (group_arrivals_are_first_maxima FTAN _ _ _ _ _ _ H2) as (-> & Hl2 & _).
  destruct Hcase as [Hcase|Hcase]; [exact Hcase|]. exfalso.
  destruct periods as [|T0 rest]; [discriminate H80|].
  destruct g1; [discriminate Hl1|]. destruct g2; [discriminate Hl2|].
  discriminate Hcase.
Qed.

End PipelineEnds.

Lemma measure_dispersion_ends_only_on_mismatch_witness :
  Qeq_bool (sac_reftime (tr1 mismatch_combination))
           (sac_reftime (tr2 mismatch_combination)) = false
  /\ existsb (fun T0 => Qeq_bool 80 T0) [40; 80] = true.
Proof.
  apply (measure_dispersion_ends_only_on_mismatch (fun _ => 1 # 2) example_FTAN
           example_filter 5 mismatch_combination [40; 80] 1 500 []).
  reflexivity.
Defined.

(** ** BandpassFilterBank *)

Section FilterBankFacts.

Variable ntaps_of : Trace -> outcome nat.
Variable firwin_band : Trace -> nat -> Q -> window_arg -> outcome (list Q).
Variable sig_convolve : list Q -> list Q -> outcome (list Q).

Lemma assign_row_length (n : nat) (filtered stored : list Q) :
  assign_row n filtered = Returned stored -> length stored = n.
Proof.
  unfold assign_row. destruct (length filtered =? n)%nat eqn:E.
  - intros H. injection H as <-. apply Nat.eqb_eq. exact E.
  - destruct filtered as [|x [|y rest]]; try discriminate.
    intros H. injection H as <-. apply length_replicate.
Qed.

Lemma filter_rows_shape (tr : Trace) (ntaps : nat) (isotr : list (list Q))
    (periods : list Q) (window : window_arg) (iperiod : nat) (rows : list (list Q)) :
  filter_rows firwin_band sig_convolve tr ntaps isotr window iperiod periods
    = Returned rows ->
  length rows = length periods
  /\ Forall (fun row => length row = length (data tr)) rows.
Proof.
  revert window iperiod rows.
  induction periods as [|T0 rest IH]; intros window iperiod rows Hrun; simpl in Hrun.
  - injection Hrun as <-. split; [reflexivity|constructor].
  - destruct (firwin_band tr ntaps T0 window) as [taps|e]; [|discriminate].
    simpl in Hrun. destruct (getitem isotr iperiod) as [row|e]; [|discriminate].
    simpl in Hrun. destruct (sig_convolve row taps) as [filtered|e]; [|discriminate].
    simpl in Hrun.
    destruct (assign_row (length (data tr)) filtered) as [stored|e] eqn:Hst;
      [|discriminate].
    simpl in Hrun.
    destruct (filter_rows firwin_band sig_convolve tr ntaps isotr (TapsWindow taps)
                (S iperiod) rest) as [rows'|e] eqn:Hrest; [|discriminate].
    simpl in Hrun. injection Hrun as <-.
    destruct (IH _ _ _ Hrest) as [Hlen Hall]. split.
    + simpl. f_equal. exact Hlen.
    + constructor; [|exact Hall]. eapply assign_row_length. exact Hst.
Qed.

(** The filtered matrix that is returned has one row per period and one
    entry per sample of the trace in every row. *)
Theorem kaiser_windows_filter_shape (tr : Trace) (isotr : list (list Q))
    (periods : list Q) (debug : bool) (rows : list (list Q)) :
  kaiser_windows_filter ntaps_of firwin_band sig_convolve tr isotr periods debug
    = Returned rows ->
  length rows = length periods
  /\ Forall (fun row => length row = length (data tr)) rows.
Proof.
  unfold kaiser_windows_filter.
  destruct (ntaps_of tr) as [ntaps|e]; [|discriminate]. simpl.
  apply filter_rows_shape.
Qed.

End FilterBankFacts.

Lemma kaiser_windows_filter_shape_witness :
  length [data window_example_trace; data window_example_trace] = length [40; 80]
  /\ Forall (fun row => length row = length (data window_example_trace))
       [data window_example_trace; data window_example_trace].
Proof.
  apply (kaiser_windows_filter_shape example_ntaps example_firwin example_convolve
           window_example_trace
           [data window_example_trace; data window_example_trace] [40; 80] false).
  reflexivity.
Defined.

(** ** Common-line test *)

Section CommonLineFacts.

Context {St Ev : Type}.
Variable coord : St -> Q * Q.
Variable latitude : Ev -> Q.
Variable longitude : Ev -> Q.
Variable baz : Q -> Q -> Q -> Q -> Q.

(** A result of the test holds the event and the two stations of the pair:
    in the order given when the two back-azimuths differ by less than the
    angle, exchanged when their difference is within the angle of 180.  For
    an angle of at most 90 the two cases exclude each other. *)
Theorem common_line_judgement_result (event : Ev) (sta1 sta2 : St) (minangle : Q)
    (a b : St) (e : Ev) :
  common_line_judgement coord latitude longitude baz event (sta1, sta2) minangle
    = Some (a, b, e) ->
  minangle <= 90 ->
  let d := Qabs (baz (snd (coord sta1)) (fst (coord sta1))
                     (snd (coord sta2)) (fst (coord sta2))
                 - baz (snd (coord sta1)) (fst (coord sta1))
                       (latitude event) (longitude event)) in
  e = event /\ 0 < minangle
  /\ ((a = sta1 /\ b = sta2 /\ d < minangle /\ ~ Qabs (d - 180) < minangle)
      \/ (a = sta2 /\ b = sta1 /\ Qabs (d - 180) < minangle /\ ~ d < minangle)).
Proof.
  intros Hres Hangle d. unfold common_line_judgement in Hres. fold d in Hres.
  assert (Hd : 0 <= d) by apply Qabs_nonneg.
  destruct (Qlt_bool d minangle) eqn:H1.
  - injection Hres as <- <- <-. apply Qlt_bool_iff in H1.
    split; [reflexivity|]. split; [lra|]. left.
    repeat split; try assumption.
    intros H2. apply Qabs_Qlt_condition in H2. lra.
  - destruct (Qlt_bool (Qabs (d - 180)) minangle) eqn:H2; [|discriminate].
    injection Hres as <- <- <-.
    apply Qlt_bool_false_iff in H1. apply Qlt_bool_iff in H2.
    split; [reflexivity|]. split.
    + pose proof (Qabs_nonneg (d - 180)). lra.
    + right. repeat split; try assumption. lra.
Qed.

End CommonLineFacts.

(** Station 181 lies behind station 0 as seen from the event at 0: the pair
    comes back exchanged. *)
Lemma common_line_judgement_result_witness :
  let d := Qabs (example_baz (snd (example_coord 0)) (fst (example_coord 0))
                             (snd (example_coord 181)) (fst (example_coord 181))
                 - example_baz (snd (example_coord 0)) (fst (example_coord 0))
                               (inject_Z 0) (inject_Z 0)) in
  0%Z = 0%Z /\ 0 < 2
  /\ ((181%nat = 0%nat /\ 0%nat = 181%nat /\ d < 2 /\ ~ Qabs (d - 180) < 2)
      \/ (181%nat = 181%nat /\ 0%nat = 0%nat /\ Qabs (d - 180) < 2 /\ ~ d < 2)).
Proof.
  apply (common_line_judgement_result example_coord inject_Z inject_Z example_baz
           0%Z 0%nat 181%nat 2 181%nat 0%nat 0%Z).
  - reflexivity.
  - discriminate.
Defined.

(** ** Trace loader: what the call amounts to *)

Section LoaderErrors.

Variable strftime : Q -> string -> string.
Variable obspy_read : string -> outcome (list Trace).
Variable merge : list Trace -> outcome (list Trace).

(** [get_merged_traces] amounts to one load of the file of station 1: it
    raises what the read or the merge raises, [IndexError] on a stream
    without a trace, [TracesNotCorrected] with the id of that trace when its
    samples are not float32, and else returns that trace twice.  The test of
    the two sampling rates never fails, so [CannotImportData] is never
    raised. *)
Theorem get_merged_traces_single_load (event : Event) (sta1 sta2 : Station)
    (sacdir : string) :
  get_merged_traces strftime obspy_read merge event sta1 sta2 sacdir
  = (st ← obspy_read (station1_path strftime event sta1 sacdir);
     m ← merge st;
     tr ← getitem m 0;
     if negb (String.eqb (dtype tr) "float32")
     then Raised (TracesNotCorrected (tr_id tr ++ " without response removal"))
     else Returned (tr, tr)).
Proof.
  unfold get_merged_traces. fold (station1_path strftime event sta1 sacdir).
  destruct (obspy_read (station1_path strftime event sta1 sacdir)) as [st|e];
    [|reflexivity].
  simpl. destruct (merge st) as [m|e]; [|reflexivity]. simpl.
  destruct (getitem m 0) as [tr|e]; [|reflexivity]. simpl.
  destruct (negb (String.eqb (dtype tr) "float32")); [reflexivity|].
  assert (Hrate : Qeq_bool (sampling_rate tr) (sampling_rate tr) = true).
  { apply Qeq_bool_iff. apply Qeq_refl. }
  rewrite Hrate. reflexivity.
Qed.

End LoaderErrors.

(** ** VelocityMatrixBuilder: every positional call *)

(** However many positional arguments it is given, [intersta_t_v_construct]
    never hands back a scale and a matrix: fewer than five or more than nine
    arguments are a [TypeError], and otherwise it returns [None] for two
    traces of different sampling rates and raises [AttributeError] in every
    other case. *)
Theorem intersta_t_v_construct_never_builds (args : list pyval) :
  ((length args <? 5)%nat || (9 <? length args)%nat = true ->
   intersta_t_v_construct args = Raised TypeError)
  /\ ((length args <? 5)%nat || (9 <? length args)%nat = false ->
      intersta_t_v_construct args
      = match args with
        | VTrace t1 :: VTrace t2 :: _ =>
            if negb (Qeq_bool (sampling_rate t1) (sampling_rate t2))
            then Returned None else Raised AttributeError
        | _ => Raised AttributeError
        end)
  /\ (intersta_t_v_construct args = Returned None
      \/ intersta_t_v_construct args = Raised TypeError
      \/ intersta_t_v_construct args = Raised AttributeError).
Proof.
  destruct args as [|a1 [|a2 [|a3 [|a4 [|a5 [|a6 [|a7 [|a8 [|a9 [|a10 rest]]]]]]]]]];
    try (split; [reflexivity|split; [discriminate|right; left; reflexivity]]);
    (split; [discriminate|]);
    destruct a1 as [t1| | |]; try (split; [reflexivity|right; right; reflexivity]);
    destruct a2 as [t2| | |]; try (split; [reflexivity|right; right; reflexivity]);
    (split; [reflexivity|]);
    unfold intersta_t_v_construct; simpl;
    (destruct (negb (Qeq_bool (sampling_rate t1) (sampling_rate t2)));
     [left|right; right]; reflexivity).
Qed.

